(** * harmonica: gravity corrections and the point-mass kernel

    A shallow embedding of [harmonica/gravity_corrections.py] and of the
    point-mass kernel called by [examples/forward/point_mass.py].

    Numbers.  A float64 is modelled as a real number or NaN ([np_float]):
    arithmetic is exact, NaN is absorbing and compares false with
    everything.  Rounding and infinities are outside the model; the one
    overflow that raises, [**] on a plain Python float, is modelled.

    Values.  The corrections are written against duck-typed arguments: a
    plain Python scalar or a one-dimensional numpy array ([pyobj]).  Every
    operator follows numpy's dispatch and broadcasting, and every
    expression lives in the exception monad [result].

    Syntax.  Two of the five bodies hold a line that is not a Python
    statement.  [PySyntax] keeps the lines of each body as tokens and
    recognises statements, so that "does not compile" is computed from the
    text and not assumed.

    Objects.  [Heap] gives the three bodies that compile their reading over
    a store of array objects, to see which objects a call writes. *)

From Stdlib Require Import Reals Lra Lia List Bool Arith.
From Stdlib Require String.
Import ListNotations.

Module PySyntax.

Import String.
Local Open Scope string_scope.
Local Open Scope list_scope.

(** Tokens, under the names of Python's [token] module. *)
Inductive token : Type :=
| NAME (id : string)
| NUMBER (text : string)
| STRING
| RETURN
| LPAR | RPAR | LSQB | RSQB
| COMMA | DOT | EQUAL | LESS
| PLUS | MINUS | STAR | DOUBLESTAR.

(** Outcome of a recogniser: the tokens left over, a syntax error, or the
    recursion budget ran out. *)
Inductive parse : Type :=
| Rest (ts : list token)
| Invalid
| Fuel.

Definition bracket_depth (d : nat) (t : token) : nat :=
  match t with
  | LPAR | LSQB => S d
  | RPAR | RSQB => Nat.pred d
  | _ => d
  end.

(** Implicit line joining: physical lines are joined while a bracket is
    open; otherwise a physical line ends the logical line. *)
Fixpoint logical_lines (d : nat) (acc : list token)
  (physical : list (list token)) : list (list token) :=
  match physical with
  | [] => match acc with [] => [] | _ => [acc] end
  | l :: rest =>
      let d' := fold_left bracket_depth l d in
      match d' with
      | O => (acc ++ l) :: logical_lines O [] rest
      | S _ => logical_lines d' (acc ++ l) rest
      end
  end.

Fixpoint p_expression (n : nat) (ts : list token) {struct n} : parse :=
  match n with
  | O => Fuel
  | S n =>
      match p_sum n ts with
      | Rest (LESS :: r) => p_expression n r
      | o => o
      end
  end
with p_sum (n : nat) (ts : list token) {struct n} : parse :=
  match n with
  | O => Fuel
  | S n =>
      match p_term n ts with
      | Rest (PLUS :: r) | Rest (MINUS :: r) => p_sum n r
      | o => o
      end
  end
with p_term (n : nat) (ts : list token) {struct n} : parse :=
  match n with
  | O => Fuel
  | S n =>
      match p_factor n ts with
      | Rest (STAR :: r) => p_term n r
      | o => o
      end
  end
with p_factor (n : nat) (ts : list token) {struct n} : parse :=
  match n with
  | O => Fuel
  | S n =>
      match ts with
      | PLUS :: r | MINUS :: r => p_factor n r
      | _ => p_power n ts
      end
  end
with p_power (n : nat) (ts : list token) {struct n} : parse :=
  match n with
  | O => Fuel
  | S n =>
      match p_primary n ts with
      | Rest (DOUBLESTAR :: r) => p_factor n r
      | o => o
      end
  end
with p_primary (n : nat) (ts : list token) {struct n} : parse :=
  match n with
  | O => Fuel
  | S n =>
      match p_atom n ts with
      | Rest r => p_trailers n r
      | o => o
      end
  end
with p_trailers (n : nat) (ts : list token) {struct n} : parse :=
  match n with
  | O => Fuel
  | S n =>
      match ts with
      | DOT :: NAME _ :: r => p_trailers n r
      | DOT :: _ => Invalid
      | LPAR :: RPAR :: r => p_trailers n r
      | LPAR :: r =>
          match p_arguments n r with
          | Rest (RPAR :: r') => p_trailers n r'
          | Rest _ => Invalid
          | o => o
          end
      | LSQB :: r =>
          match p_expression n r with
          | Rest (RSQB :: r') => p_trailers n r'
          | Rest _ => Invalid
          | o => o
          end
      | _ => Rest ts
      end
  end
with p_atom (n : nat) (ts : list token) {struct n} : parse :=
  match n with
  | O => Fuel
  | S n =>
      match ts with
      | NAME _ :: r | NUMBER _ :: r | STRING :: r => Rest r
      | LPAR :: r =>
          match p_expression n r with
          | Rest (RPAR :: r') => Rest r'
          | Rest _ => Invalid
          | o => o
          end
      | _ => Invalid
      end
  end
with p_arguments (n : nat) (ts : list token) {struct n} : parse :=
  match n with
  | O => Fuel
  | S n =>
      match
        match ts with
        | NAME _ :: EQUAL :: r => p_expression n r
        | _ => p_expression n ts
        end
      with
      | Rest (COMMA :: r) => p_arguments n r
      | o => o
      end
  end.

(** An assignment target: a name, subscripted or dotted. *)
Fixpoint p_target_trailers (n : nat) (ts : list token) : parse :=
  match n with
  | O => Fuel
  | S n =>
      match ts with
      | DOT :: NAME _ :: r => p_target_trailers n r
      | LSQB :: r =>
          match p_expression n r with
          | Rest (RSQB :: r') => p_target_trailers n r'
          | Rest _ => Invalid
          | o => o
          end
      | _ => Rest ts
      end
  end.

Definition p_target (n : nat) (ts : list token) : parse :=
  match ts with
  | NAME _ :: r => p_target_trailers n r
  | _ => Invalid
  end.

(** A simple statement on one logical line: [return e], [target = e] or an
    expression.  A line that opens with [*] is a starred expression, which
    Python's compiler refuses as a statement; the expression grammar here
    has no such form. *)
Definition p_statement (n : nat) (ts : list token) : parse :=
  match ts with
  | RETURN :: r => p_expression n r
  | _ =>
      match p_target n ts with
      | Rest (EQUAL :: r) => p_expression n r
      | _ => p_expression n ts
      end
  end.

Definition budget (ts : list token) : nat := 8 * S (List.length ts).

Inductive verdict : Type := Accepted | Rejected | Undecided.

Definition check_line (ts : list token) : verdict :=
  match p_statement (budget ts) ts with
  | Rest [] => Accepted
  | Rest (_ :: _) | Invalid => Rejected
  | Fuel => Undecided
  end.

Definition accepted (v : verdict) : bool :=
  match v with Accepted => true | _ => false end.

Definition compiles (physical : list (list token)) : bool :=
  forallb (fun l => accepted (check_line l)) (logical_lines 0 [] physical).

(** The statements of the five function bodies, one token list per
    physical line (docstrings are one [STRING] token; blank lines and
    comments carry no token). *)

Definition bouguer_correction_body : list (list token) :=
  [ [STRING];
    [NAME "oceans"; EQUAL; NAME "np"; DOT; NAME "array"; LPAR;
     NAME "topography"; LESS; NUMBER "0"; RPAR];
    [NAME "continent"; EQUAL; NAME "np"; DOT; NAME "logical_not"; LPAR;
     NAME "oceans"; RPAR];
    [NAME "density"; EQUAL; NAME "np"; DOT; NAME "full"; LPAR;
     NAME "topography"; DOT; NAME "shape"; COMMA; NAME "np"; DOT; NAME "nan";
     COMMA; NAME "dtype"; EQUAL; STRING; RPAR];
    [NAME "density"; LSQB; NAME "continent"; RSQB; EQUAL;
     NAME "density_crust"];
    [NAME "density"; LSQB; NAME "oceans"; RSQB; EQUAL; MINUS; NUMBER "1";
     STAR; LPAR; NAME "density_water"; MINUS; NAME "density_crust"; RPAR];
    [NAME "bouguer"; EQUAL; NUMBER "1e5"; STAR; NUMBER "2"; STAR; NAME "np";
     DOT; NAME "pi"; STAR; NAME "GRAVITATIONAL_CONST"; STAR; NAME "density";
     STAR; NAME "topography"];
    [RETURN; NAME "bouguer"] ].

Definition atmospheric_correction_body : list (list token) :=
  [ [STRING];
    [NAME "atmos_correction"; EQUAL; NUMBER "0.874"; MINUS; NUMBER "9.9e-05";
     STAR; NAME "topography"; PLUS; NUMBER "3.56e-09"; STAR;
     NAME "topography"; DOUBLESTAR; NUMBER "2"];
    [RETURN; NAME "atmos_correction"] ].

Definition spherical_bouguer_cap_correction_body : list (list token) :=
  [ [STRING];
    [NAME "spher_cap_corr"; EQUAL; NUMBER "0.001464139"; STAR;
     NAME "topography"; MINUS; NUMBER "3.533047e-07"; STAR;
     NAME "topography"; DOUBLESTAR; NUMBER "2"];
    [PLUS; NUMBER "1.002709e-13"; STAR; NAME "topography"; DOUBLESTAR;
     NUMBER "3"; PLUS; NUMBER "3.002407E-18"; STAR; NAME "topography";
     DOUBLESTAR; NUMBER "4"];
    [RETURN; NAME "spher_cap_corr"] ].

Definition free_air_correction_body : list (list token) :=
  [ [STRING];
    [NAME "free_air_corr"; EQUAL; MINUS; LPAR; NUMBER "0.3087691"; MINUS;
     NUMBER "0.0004398"; STAR; LPAR; NAME "np"; DOT; NAME "sin"; LPAR;
     NAME "np"; DOT; NAME "radians"; LPAR; NAME "latitude"; RPAR; RPAR;
     RPAR; DOUBLESTAR; NUMBER "2"; RPAR];
    [STAR; NAME "topography"; PLUS; NUMBER "7.2125e-08"; STAR;
     NAME "topography"; DOUBLESTAR; NUMBER "2"];
    [RETURN; NAME "free_air_corr"] ].

Definition eotvos_correction_body : list (list token) :=
  [ [STRING];
    [NAME "eotvos_corr"; EQUAL; NUMBER "7.503"; STAR; NAME "velocity"; STAR;
     NAME "np"; DOT; NAME "sin"; LPAR; NAME "np"; DOT; NAME "radians"; LPAR;
     NAME "azimuth"; RPAR; RPAR; STAR];
    [NAME "np"; DOT; NAME "cos"; LPAR; NAME "np"; DOT; NAME "radians"; LPAR;
     NAME "latitude"; RPAR; RPAR; PLUS; NUMBER "0.004154"; STAR;
     NAME "velocity"; DOUBLESTAR; NUMBER "2"];
    [RETURN; NAME "eotvos_corr"] ].

(** The module, function after function. *)
Definition gravity_corrections_py : list (list token) :=
  bouguer_correction_body ++ atmospheric_correction_body
  ++ spherical_bouguer_cap_correction_body ++ free_air_correction_body
  ++ eotvos_correction_body.

End PySyntax.
Local Open Scope R_scope.

(** ** Numbers *)

Inductive np_float : Type :=
| Fin (r : R)
| NaN.

Definition is_nan (x : np_float) : bool :=
  match x with NaN => true | Fin _ => false end.

Definition f_lift2 (op : R -> R -> R) (x y : np_float) : np_float :=
  match x, y with
  | Fin a, Fin b => Fin (op a b)
  | _, _ => NaN
  end.

Definition f_add : np_float -> np_float -> np_float := f_lift2 Rplus.
Definition f_sub : np_float -> np_float -> np_float := f_lift2 Rminus.
Definition f_mul : np_float -> np_float -> np_float := f_lift2 Rmult.

(** Elementwise power of a float64 array. *)
Definition f_pow (n : nat) (x : np_float) : np_float :=
  match x with Fin a => Fin (a ^ n) | NaN => NaN end.

Definition f_map (g : R -> R) (x : np_float) : np_float :=
  match x with Fin a => Fin (g a) | NaN => NaN end.

(** [x < 0]: false on NaN. *)
Definition f_ltb0 (x : np_float) : bool :=
  match x with
  | Fin a => if Rlt_dec a 0 then true else false
  | NaN => false
  end.

(** ** Exceptions *)

Inductive pyexn : Type :=
| SyntaxError
| AttributeError
| ValueError
| IndexError
| ReferenceError
| OverflowError.

Inductive result (A : Type) : Type :=
| Ok (a : A)
| Raise (e : pyexn).

Arguments Ok {A} a.
Arguments Raise {A} e.

Definition bind {A B : Type} (m : result A) (k : A -> result B) : result B :=
  match m with
  | Ok a => k a
  | Raise e => Raise e
  end.

Definition fmap {A B : Type} (g : A -> B) (m : result A) : result B :=
  bind m (fun a => Ok (g a)).

Declare Scope py_scope.
Delimit Scope py_scope with py.

Notation "x <- m ;; k" := (bind m (fun x => k))
  (at level 61, m at next level, right associativity) : py_scope.

(** ** Python values *)

(** A plain Python float or a one-dimensional float64 array.  Arrays of
    another dtype and other Python objects are not represented: every
    statement below about a [pyobj] is about these two kinds of input. *)
Inductive pyobj : Type :=
| PyFloat (x : np_float)
| NdArray (a : list np_float).

Fixpoint map2 {A B C : Type} (g : A -> B -> C) (xs : list A) (ys : list B)
  : list C :=
  match xs, ys with
  | x :: xs', y :: ys' => g x y :: map2 g xs' ys'
  | _, _ => []
  end.

(** Binary operator dispatch.  A scalar is broadcast over an array; two
    arrays must have the same length unless one of them has length one. *)
Definition broadcast (op : np_float -> np_float -> np_float) (x y : pyobj)
  : result pyobj :=
  match x, y with
  | PyFloat a, PyFloat b => Ok (PyFloat (op a b))
  | PyFloat a, NdArray ys => Ok (NdArray (map (op a) ys))
  | NdArray xs, PyFloat b => Ok (NdArray (map (fun a => op a b) xs))
  | NdArray xs, NdArray ys =>
      if Nat.eqb (length xs) (length ys) then Ok (NdArray (map2 op xs ys))
      else match xs, ys with
           | [a], _ => Ok (NdArray (map (op a) ys))
           | _, [b] => Ok (NdArray (map (fun a => op a b) xs))
           | _, _ => Raise ValueError
           end
  end.

Definition elementwise (g : np_float -> np_float) (x : pyobj) : pyobj :=
  match x with
  | PyFloat a => PyFloat (g a)
  | NdArray xs => NdArray (map g xs)
  end.

Definition lift2 (g : pyobj -> pyobj -> result pyobj) (m1 m2 : result pyobj)
  : result pyobj :=
  bind m1 (fun x => bind m2 (fun y => g x y)).

Definition py_add : result pyobj -> result pyobj -> result pyobj :=
  lift2 (broadcast f_add).
Definition py_sub : result pyobj -> result pyobj -> result pyobj :=
  lift2 (broadcast f_sub).
Definition py_mul : result pyobj -> result pyobj -> result pyobj :=
  lift2 (broadcast f_mul).

(** The largest finite float64, (2 - 2^-52) 2^1023. *)
Definition float_max : R := (2 - / 2 ^ 52) * 2 ^ 1023.

(** [x ** n] on a plain Python float raises [OverflowError] when the power
    leaves the float range (judged here on the exact power); NaN stays
    NaN. *)
Definition float_pow (n : nat) (x : np_float) : result np_float :=
  match x with
  | Fin a =>
      if Rlt_dec float_max (Rabs (a ^ n)) then Raise OverflowError
      else Ok (Fin (a ^ n))
  | NaN => Ok NaN
  end.

(** [**] dispatches on its left operand: Python's float power on a plain
    float, numpy's elementwise power, which does not raise, on an array. *)
Definition pow_dispatch (n : nat) (x : pyobj) : result pyobj :=
  match x with
  | PyFloat a => fmap PyFloat (float_pow n a)
  | NdArray xs => Ok (NdArray (map (f_pow n) xs))
  end.

Definition py_pow (m : result pyobj) (n : nat) : result pyobj :=
  bind m (pow_dispatch n).
Definition py_pos (m : result pyobj) : result pyobj :=
  fmap (elementwise (fun x => x)) m.
Definition py_neg (m : result pyobj) : result pyobj :=
  fmap (elementwise (f_map Ropp)) m.

Definition radians (x : R) : R := x * (PI / 180).

Definition np_sin (m : result pyobj) : result pyobj :=
  fmap (elementwise (f_map sin)) m.
Definition np_cos (m : result pyobj) : result pyobj :=
  fmap (elementwise (f_map cos)) m.
Definition np_radians (m : result pyobj) : result pyobj :=
  fmap (elementwise (f_map radians)) m.

Definition var (x : pyobj) : result pyobj := Ok x.
Definition lit (r : R) : result pyobj := Ok (PyFloat (Fin r)).
Definition arr (a : list np_float) : result pyobj := Ok (NdArray a).

Coercion var : pyobj >-> result.

Notation "# r" := (lit r%R) (at level 1, format "# r") : py_scope.
Infix "+" := py_add : py_scope.
Infix "-" := py_sub : py_scope.
Infix "*" := py_mul : py_scope.
Notation "x ** n" := (py_pow x n%nat) (at level 30, right associativity)
  : py_scope.
Notation "+ x" := (py_pos x) (at level 35, right associativity) : py_scope.
Notation "- x" := (py_neg x) (at level 35, right associativity) : py_scope.

(** The [.shape] attribute: a plain Python float has none. *)
Definition shape (x : pyobj) : result (list nat) :=
  match x with
  | PyFloat _ => Raise AttributeError
  | NdArray a => Ok [length a]
  end.

(** [np.array(x < 0)]: the boolean mask; for a scalar the one element of
    the zero-dimensional result. *)
Definition np_array_lt0 (x : pyobj) : list bool :=
  match x with
  | PyFloat a => [f_ltb0 a]
  | NdArray xs => map f_ltb0 xs
  end.

Definition np_logical_not (m : list bool) : list bool := map negb m.

(** [np.full(shape, fill_value)] *)
Definition np_full (shp : list nat) (v : np_float) : list np_float :=
  repeat v (fold_right Nat.mul 1%nat shp).

(** [a[mask] = v] for a boolean mask: the mask must have the array's length. *)
Definition setitem_mask (a : list np_float) (mask : list bool) (v : np_float)
  : result (list np_float) :=
  if Nat.eqb (length mask) (length a)
  then Ok (map2 (fun x (b : bool) => if b then v else x) a mask)
  else Raise IndexError.

(** Python compiles a body before any of it runs: one line that is not a
    statement raises [SyntaxError]. *)
Definition py_compile (physical : list (list PySyntax.token)) : result unit :=
  if PySyntax.compiles physical then Ok tt else Raise SyntaxError.

(** ** The corrections *)

Section Corrections.

(** [from .constants import GRAVITATIONAL_CONST]: the constants module is
    imported, not defined here: its value is a parameter. *)
Variable GRAVITATIONAL_CONST : R.

Local Open Scope py_scope.

Definition bouguer_density (topography : pyobj)
  (density_crust density_water : np_float) : result (list np_float) :=
  let oceans := np_array_lt0 topography in
  let continent := np_logical_not oceans in
  shp <- shape topography ;;
  let density := np_full shp NaN in
  density <- setitem_mask density continent density_crust ;;
  density <- setitem_mask density oceans
               (f_mul (Fin (-1)) (f_sub density_water density_crust)) ;;
  Ok density.

Definition bouguer_correction (topography : pyobj)
  (density_crust density_water : np_float) : result pyobj :=
  density <- bouguer_density topography density_crust density_water ;;
  let bouguer :=
    #1e5 * #2 * #PI * #GRAVITATIONAL_CONST * arr density * topography in
  bouguer.

Definition atmospheric_correction (topography : pyobj) : result pyobj :=
  let atmos_correction :=
    #0.874 - #9.9e-05 * topography + #3.56e-09 * topography ** 2 in
  atmos_correction.

(** The assignment ends at the end of its line; the next line is an
    expression statement of its own (a unary plus applied to the cubic
    term, plus the quartic term) whose value is dropped. *)
Definition spherical_bouguer_cap_correction (topography : pyobj)
  : result pyobj :=
  spher_cap_corr <- #0.001464139 * topography
                    - #3.533047e-07 * topography ** 2 ;;
  _ <- + #1.002709e-13 * topography ** 3 + #3.002407E-18 * topography ** 4 ;;
  Ok spher_cap_corr.

(** The assignment to [free_air_corr] is complete at the end of its line
    (the parenthesis is closed); the line after it opens with [*] and is
    not a statement, so the body does not compile. *)
Definition free_air_assignment (latitude : pyobj) : result pyobj :=
  - (#0.3087691 - #0.0004398 * (np_sin (np_radians latitude)) ** 2).

Definition free_air_correction (topography latitude : pyobj)
  : result pyobj :=
  _ <- py_compile PySyntax.free_air_correction_body ;;
  free_air_corr <- free_air_assignment latitude ;;
  Ok free_air_corr.

(** The expression of [eotvos_correction] with its two physical lines read
    as one, the way they would be inside parentheses. *)
Definition eotvos_joined (latitude velocity azimuth : pyobj) : result pyobj :=
  #7.503 * velocity * np_sin (np_radians azimuth)
  * np_cos (np_radians latitude) + #0.004154 * velocity ** 2.

(** The first line of the assignment ends with a [*] outside any bracket:
    the logical line ends there and the body does not compile. *)
Definition eotvos_correction (latitude velocity azimuth : pyobj)
  : result pyobj :=
  _ <- py_compile PySyntax.eotvos_correction_body ;;
  eotvos_corr <- eotvos_joined latitude velocity azimuth ;;
  Ok eotvos_corr.

(** [import harmonica.gravity_corrections]: the five bodies are compiled
    together; a call through the module runs after the import. *)
Definition import_gravity_corrections : result unit :=
  py_compile PySyntax.gravity_corrections_py.

Definition call_imported {A : Type} (call : result A) : result A :=
  _ <- import_gravity_corrections ;; call.

End Corrections.
Arguments bouguer_density : simpl never.

(** ** Documented formulas

    The closed forms given in the docstrings, over the reals; the code is
    compared with them below. *)

Definition atmospheric_documented (h : R) : R :=
  0.874 - 9.9e-5 * h + 3.56e-9 * (h * h).

Definition spherical_cap_documented (h : R) : R :=
  0.001464139 * h - 3.533047e-07 * (h * h) + 1.002709e-13 * (h * h * h)
  + 3.002407e-18 * (h * h * h * h).

(** What the spherical cap code binds to [spher_cap_corr]. *)
Definition spherical_cap_prefix (h : R) : R :=
  0.001464139 * h - 3.533047e-07 * (h * h).

(** Elementwise reading of the two polynomial corrections. *)
Definition atmospheric_elem (x : np_float) : np_float :=
  f_add (f_sub (Fin 0.874) (f_mul (Fin 9.9e-05) x))
        (f_mul (Fin 3.56e-09) (f_pow 2 x)).

Definition spherical_cap_elem (x : np_float) : np_float :=
  f_sub (f_mul (Fin 0.001464139) x) (f_mul (Fin 3.533047e-07) (f_pow 2 x)).

(** The density the two masked assignments leave at an element. *)
Definition density_elem (density_crust density_water x : np_float)
  : np_float :=
  if f_ltb0 x then f_mul (Fin (-1)) (f_sub density_water density_crust)
  else density_crust.

Definition bouguer_elem (G : R) (density_crust density_water x : np_float)
  : np_float :=
  f_mul (f_mul (Fin (1e5 * 2 * PI * G))
               (density_elem density_crust density_water x)) x.

Definition not_nan (x : np_float) : Prop := is_nan x = false.

(** The value [bouguer_correction] returns for the one-element array [[h]],
    as a real function of [h]. *)
Definition bouguer_value (G density_crust density_water h : R) : R :=
  match bouguer_correction G (NdArray [Fin h])
          (Fin density_crust) (Fin density_water) with
  | Ok (NdArray [Fin b]) => b
  | _ => 0
  end.


Definition same_shape (x y : pyobj) : Prop :=
  match x, y with
  | PyFloat _, PyFloat _ => True
  | NdArray a, NdArray b => length a = length b
  | _, _ => False
  end.

(** The documented free-air formula, over the reals. *)
Definition free_air_documented (h phi : R) : R :=
  - (0.3087691 - 0.0004398 * (sin (radians phi) * sin (radians phi))) * h
  + 7.2125e-08 * (h * h).

(** The slopes of the two Bouguer branches, in mGal per metre. *)
Definition bouguer_slope_land (G density_crust : R) : R :=
  1e5 * (2 * PI * G * density_crust).
Definition bouguer_slope_ocean (G density_crust density_water : R) : R :=
  1e5 * (2 * PI * G * (density_crust - density_water)).

(** ** Objects

    Arrays are mutable objects and a name holds a reference to one; floats
    are immutable values.  The heap lists the arrays by address.  A numpy
    operator reads its operands and returns a new array; only a subscript
    assignment writes into an existing one. *)

Module Heap.

Definition heap : Type := list (list np_float).

Inductive value : Type :=
| VFloat (x : np_float)
| VRef (p : nat).

Definition M (A : Type) : Type := heap -> result A * heap.

Definition ret {A : Type} (a : A) : M A := fun h => (Ok a, h).

Definition mbind {A B : Type} (m : M A) (k : A -> M B) : M B :=
  fun h =>
    match m h with
    | (Ok a, h') => k a h'
    | (Raise e, h') => (Raise e, h')
    end.

Definition lift {A : Type} (m : result A) : M A := fun h => (m, h).

Declare Scope heap_scope.
Delimit Scope heap_scope with heap.
Notation "x <- m ;; k" := (mbind m (fun x => k))
  (at level 61, m at next level, right associativity) : heap_scope.
Local Open Scope heap_scope.

Definition alloc (a : list np_float) : M nat :=
  fun h => (Ok (length h), h ++ [a]).

Fixpoint update {A : Type} (p : nat) (a : A) (l : list A) : list A :=
  match l, p with
  | [], _ => []
  | _ :: l', O => a :: l'
  | x :: l', S p' => x :: update p' a l'
  end.

(** Reading a name: a float is itself, a reference is followed.  A live
    Python reference always has its object; [ReferenceError] stands for a
    reference outside the heap. *)
Definition deref (v : value) : M pyobj :=
  fun h =>
    match v with
    | VFloat x => (Ok (PyFloat x), h)
    | VRef p =>
        match nth_error h p with
        | Some a => (Ok (NdArray a), h)
        | None => (Raise ReferenceError, h)
        end
    end.

(** The result of an operator becomes a new object. *)
Definition new_object (r : pyobj) : M value :=
  match r with
  | PyFloat x => ret (VFloat x)
  | NdArray a => p <- alloc a ;; ret (VRef p)
  end.

(** [a[mask] = v], in place. *)
Definition setitem_mask_inplace (p : nat) (mask : list bool) (v : np_float)
  : M unit :=
  fun h =>
    match nth_error h p with
    | Some a =>
        match setitem_mask a mask v with
        | Ok a' => (Ok tt, update p a' h)
        | Raise e => (Raise e, h)
        end
    | None => (Raise ReferenceError, h)
    end.

Definition bouguer_correction (G : R) (topography : value)
  (density_crust density_water : np_float) : M value :=
  t <- deref topography ;;
  let oceans := np_array_lt0 t in
  let continent := np_logical_not oceans in
  shp <- lift (shape t) ;;
  density <- alloc (np_full shp NaN) ;;
  _ <- setitem_mask_inplace density continent density_crust ;;
  _ <- setitem_mask_inplace density oceans
         (f_mul (Fin (-1)) (f_sub density_water density_crust)) ;;
  d <- deref (VRef density) ;;
  bouguer <- lift (#1e5 * #2 * #PI * #G * var d * var t)%py ;;
  new_object bouguer.

Definition atmospheric_correction (topography : value) : M value :=
  t <- deref topography ;;
  atmos_correction <- lift (atmospheric_correction t) ;;
  new_object atmos_correction.

Definition spherical_bouguer_cap_correction (topography : value) : M value :=
  t <- deref topography ;;
  spher_cap_corr <- lift (spherical_bouguer_cap_correction t) ;;
  new_object spher_cap_corr.

(** What a value denotes in a heap. *)
Definition denotes (h : heap) (v : value) (x : pyobj) : Prop :=
  fst (deref v h) = Ok x.

End Heap.

(** ** The point-mass kernel *)

Definition zip_coordinates (c : list R * list R * list R)
  : result (list (R * R * R)) :=
  let '(e, n, u) := c in
  if Nat.eqb (length e) (length n) && Nat.eqb (length n) (length u)
  then Ok (combine (combine e n) u)
  else Raise ValueError.

(** One source's term G m dz / r^3 at one observation point. *)
Definition kernel_g_z (G : R) (obs : R * R * R) (src : R * R * R) (m : R)
  : R :=
  let '(e, n, u) := obs in
  let '(e_p, n_p, u_p) := src in
  let dz := u_p - u in
  let r := sqrt ((e_p - e) * (e_p - e) + (n_p - n) * (n_p - n) + dz * dz) in
  G * m * dz / (r * r * r).

Fixpoint sum_sources (G : R) (obs : R * R * R) (srcs : list (R * R * R))
  (masses : list R) : R :=
  match srcs, masses with
  | s :: srcs', m :: masses' =>
      kernel_g_z G obs s m + sum_sources G obs srcs' masses'
  | _, _ => 0
  end.

(** Modelled from the spec: [point_mass_gravity] is called by
    [examples/forward/point_mass.py] and defined in a module that is not
    among the sources.  Per the spec's kernel evaluator: the three
    coordinate arrays are co-indexed, there is one mass per source, a
    mismatch is a shape error, and each observation point gets the sum over
    the sources of G m dz / r^3 (field ["g_z"], Cartesian coordinates, the
    selectors of the example's call).  The vertical offset is taken from
    the observation point to the source. *)
Definition point_mass_gravity (G : R) (coordinates points : list R * list R * list R)
  (masses : list R) : result (list R) :=
  (obs <- zip_coordinates coordinates ;;
   srcs <- zip_coordinates points ;;
   if Nat.eqb (length srcs) (length masses)
   then Ok (map (fun o => sum_sources G o srcs masses) obs)
   else Raise ValueError)%py.

(** The two sources of the example script. *)
Definition example_points : list R * list R * list R :=
  ([5e3; 15e3], [5e3; 15e3], [-5e3; -2.5e3]).
Definition example_masses : list R := [10e6; -10e6].




(** ** Lists and broadcasting *)

Lemma map2_length {A B C : Type} (g : A -> B -> C) xs ys :
  length xs = length ys -> length (map2 g xs ys) = length xs.
Proof.
  revert ys; induction xs as [|x xs IH]; intros [|y ys] H;
    simpl in *; try congruence.
  f_equal. apply IH. congruence.
Qed.

Lemma map2_map_map {A B C D : Type} (g : B -> C -> D) (p : A -> B)
  (q : A -> C) (l : list A) :
  map2 g (map p l) (map q l) = map (fun x => g (p x) (q x)) l.
Proof. induction l as [|x l IH]; simpl; [reflexivity | now rewrite IH]. Qed.

Lemma map2_map_l {A B C : Type} (g : B -> A -> C) (p : A -> B) (l : list A) :
  map2 g (map p l) l = map (fun x => g (p x) x) l.
Proof. induction l as [|x l IH]; simpl; [reflexivity | now rewrite IH]. Qed.

Lemma broadcast_same_length op xs ys :
  length xs = length ys ->
  broadcast op (NdArray xs) (NdArray ys) = Ok (NdArray (map2 op xs ys)).
Proof.
  intros H. unfold broadcast.
  now rewrite (proj2 (Nat.eqb_eq _ _) H).
Qed.

Lemma broadcast_maps op (p q : np_float -> np_float) (l : list np_float) :
  broadcast op (NdArray (map p l)) (NdArray (map q l))
  = Ok (NdArray (map (fun x => op (p x) (q x)) l)).
Proof.
  rewrite broadcast_same_length by now rewrite !length_map.
  now rewrite map2_map_map.
Qed.

Lemma broadcast_ff op a b :
  broadcast op (PyFloat a) (PyFloat b) = Ok (PyFloat (op a b)).
Proof. reflexivity. Qed.

Lemma broadcast_fa op a ys :
  broadcast op (PyFloat a) (NdArray ys) = Ok (NdArray (map (op a) ys)).
Proof. reflexivity. Qed.

Lemma broadcast_af op xs b :
  broadcast op (NdArray xs) (PyFloat b)
  = Ok (NdArray (map (fun a => op a b) xs)).
Proof. reflexivity. Qed.

Arguments broadcast : simpl never.

Create Rewrite HintDb py_dispatch.
#[local] Hint Rewrite broadcast_ff broadcast_fa broadcast_af : py_dispatch.
#[local] Hint Rewrite @map_map : py_dispatch.

Ltac py_eval :=
  unfold py_add, py_sub, py_mul, py_pow, py_pos, py_neg, np_sin, np_cos,
    np_radians, lift2, fmap, lit, var, arr;
  repeat (progress (simpl; autorewrite with py_dispatch)).

Lemma float_max_lower : 1e300 < float_max.
Proof. unfold float_max. lra. Qed.

Lemma float_pow_cases (n : nat) (x : np_float) :
  float_pow n x = Ok (f_pow n x) \/ float_pow n x = Raise OverflowError.
Proof.
  destruct x as [a|]; simpl; [|now left].
  destruct (Rlt_dec float_max (Rabs (a ^ n))); [now right | now left].
Qed.

Lemma float_pow_in_range (n : nat) (a : R) :
  Rabs (a ^ n) <= float_max -> float_pow n (Fin a) = Ok (Fin (a ^ n)).
Proof.
  intros H. simpl. destruct (Rlt_dec float_max (Rabs (a ^ n))); [lra|].
  reflexivity.
Qed.

Lemma float_pow_overflow (n : nat) (a : R) :
  float_max < Rabs (a ^ n) -> float_pow n (Fin a) = Raise OverflowError.
Proof.
  intros H. simpl. destruct (Rlt_dec float_max (Rabs (a ^ n))); [|lra].
  reflexivity.
Qed.

Arguments float_pow : simpl never.

Lemma atmospheric_correction_array (t : list np_float) :
  atmospheric_correction (NdArray t) = Ok (NdArray (map atmospheric_elem t)).
Proof.
  unfold atmospheric_correction; py_eval. unfold atmospheric_elem.
  rewrite (broadcast_maps f_add
             (fun x => f_sub (Fin 0.874) (f_mul (Fin 9.9e-05) x))
             (fun x => f_mul (Fin 3.56e-09) (f_pow 2 x))).
  reflexivity.
Qed.

(** On a plain float the call raises exactly when the square does. *)
Lemma atmospheric_correction_scalar (x : np_float) :
  atmospheric_correction (PyFloat x)
  = bind (float_pow 2 x) (fun _ => Ok (PyFloat (atmospheric_elem x))).
Proof.
  unfold atmospheric_correction; py_eval. unfold pow_dispatch, fmap.
  destruct (float_pow_cases 2 x) as [E | E]; rewrite E; reflexivity.
Qed.

Lemma spherical_bouguer_cap_correction_array (t : list np_float) :
  spherical_bouguer_cap_correction (NdArray t)
  = Ok (NdArray (map spherical_cap_elem t)).
Proof.
  unfold spherical_bouguer_cap_correction; py_eval.
  rewrite (broadcast_maps f_sub (fun x => f_mul (Fin 0.001464139) x)
             (fun x => f_mul (Fin 3.533047e-07) (f_pow 2 x))).
  simpl.
  rewrite (broadcast_maps f_add
             (fun x => f_mul (Fin 1.002709e-13) (f_pow 3 x))
             (fun x => f_mul (Fin 3.002407e-18) (f_pow 4 x))).
  reflexivity.
Qed.

(** On a plain float the three powers are taken in the order of the
    source: the square of the assignment, then the cube and the fourth
    power of the statement after it, whose value is dropped but which
    still runs. *)
Lemma spherical_bouguer_cap_correction_scalar (x : np_float) :
  spherical_bouguer_cap_correction (PyFloat x)
  = bind (float_pow 2 x) (fun _ =>
    bind (float_pow 3 x) (fun _ =>
    bind (float_pow 4 x) (fun _ => Ok (PyFloat (spherical_cap_elem x))))).
Proof.
  unfold spherical_bouguer_cap_correction; py_eval.
  unfold pow_dispatch, fmap.
  destruct (float_pow_cases 2 x) as [E2 | E2]; rewrite E2; [|reflexivity].
  cbn [bind]. autorewrite with py_dispatch. cbn [bind].
  destruct (float_pow_cases 3 x) as [E3 | E3]; rewrite E3; [|reflexivity].
  cbn [bind]. autorewrite with py_dispatch. cbn [bind].
  destruct (float_pow_cases 4 x) as [E4 | E4]; rewrite E4; reflexivity.
Qed.

Lemma atmospheric_elem_fin (h : R) :
  atmospheric_elem (Fin h) = Fin (atmospheric_documented h).
Proof.
  unfold atmospheric_elem, atmospheric_documented. simpl. f_equal. lra.
Qed.

Lemma spherical_cap_elem_fin (h : R) :
  spherical_cap_elem (Fin h) = Fin (spherical_cap_prefix h).
Proof.
  unfold spherical_cap_elem, spherical_cap_prefix. simpl. f_equal. lra.
Qed.

(** ** The Bouguer plate, element by element *)

Section Bouguer.

Variable G : R.

Lemma repeat_as_map {A B : Type} (v : B) (l : list A) :
  repeat v (length l) = map (fun _ => v) l.
Proof. induction l as [|x l IH]; simpl; [reflexivity | now rewrite IH]. Qed.

Lemma setitem_mask_maps {A : Type} (q : A -> np_float) (p : A -> bool)
  (v : np_float) (l : list A) :
  setitem_mask (map q l) (map p l) v
  = Ok (map (fun y => if p y then v else q y) l).
Proof.
  unfold setitem_mask. rewrite !length_map, Nat.eqb_refl.
  now rewrite map2_map_map.
Qed.

Lemma bouguer_density_array (t : list np_float) (dc dw : np_float) :
  bouguer_density (NdArray t) dc dw = Ok (map (density_elem dc dw) t).
Proof.
  unfold bouguer_density, np_array_lt0, np_logical_not, np_full, shape.
  cbn [bind fold_right]. rewrite Nat.mul_1_r, (repeat_as_map NaN t), map_map.
  rewrite (setitem_mask_maps (fun _ => NaN) (fun x => negb (f_ltb0 x))).
  cbn [bind].
  rewrite (setitem_mask_maps
             (fun y => if negb (f_ltb0 y) then dc else NaN) f_ltb0).
  cbn [bind]. f_equal. apply map_ext. intros x. unfold density_elem.
  now destruct (f_ltb0 x).
Qed.

Lemma bouguer_density_scalar (x dc dw : np_float) :
  bouguer_density (PyFloat x) dc dw = Raise AttributeError.
Proof. reflexivity. Qed.

Lemma bouguer_correction_array (t : list np_float) (dc dw : np_float) :
  bouguer_correction G (NdArray t) dc dw
  = Ok (NdArray (map (bouguer_elem G dc dw) t)).
Proof.
  unfold bouguer_correction. rewrite bouguer_density_array. cbn [bind].
  py_eval.
  rewrite broadcast_same_length by now rewrite length_map.
  now rewrite map2_map_l.
Qed.

Lemma bouguer_correction_scalar (x dc dw : np_float) :
  bouguer_correction G (PyFloat x) dc dw = Raise AttributeError.
Proof. reflexivity. Qed.

End Bouguer.


Lemma spherical_cap_elem_prefix (x : np_float) :
  spherical_cap_elem x = f_map spherical_cap_prefix x.
Proof. destruct x as [h|]; [apply spherical_cap_elem_fin | reflexivity]. Qed.

Lemma Rabs_bounds (h b : R) : Rabs h <= b -> - b <= h <= b.
Proof. unfold Rabs. destruct (Rcase_abs h); lra. Qed.

Lemma square_in_range (h : R) : Rabs h <= 1e150 -> Rabs (h ^ 2) <= float_max.
Proof.
  intros H. apply Rabs_bounds in H. pose proof float_max_lower as HM.
  rewrite Rabs_pos_eq by apply pow2_ge_0.
  assert (h ^ 2 <= 1e300) by nra. lra.
Qed.

(** If the fourth power is in range, so are the square and the cube. *)
Lemma lower_powers_in_range (h : R) :
  Rabs (h ^ 4) <= float_max ->
  Rabs (h ^ 2) <= float_max /\ Rabs (h ^ 3) <= float_max.
Proof.
  intros H. pose proof float_max_lower as HM.
  rewrite <- (RPow_abs h 4) in H.
  rewrite <- (RPow_abs h 2), <- (RPow_abs h 3).
  pose proof (Rabs_pos h) as Ha.
  set (a := Rabs h) in *. set (s := a * a).
  replace (a ^ 2) with s by (unfold s; ring).
  replace (a ^ 3) with (a * s) by (unfold s; ring).
  replace (a ^ 4) with (s * s) in H by (unfold s; ring).
  assert (Hs : 0 <= s) by (unfold s; nra).
  destruct (Rle_dec a 1) as [L | L].
  - assert (s <= 1) by (unfold s; nra). assert (a * s <= 1) by nra.
    split; lra.
  - assert (a <= s) by (unfold s; nra). assert (s <= s * s) by nra.
    assert (a * s <= s * s) by nra. split; lra.
Qed.

Lemma atmospheric_correction_fin (h : R) :
  atmospheric_correction (PyFloat (Fin h))
  = if Rlt_dec float_max (Rabs (h ^ 2)) then Raise OverflowError
    else Ok (PyFloat (Fin (atmospheric_documented h))).
Proof.
  rewrite atmospheric_correction_scalar.
  destruct (Rlt_dec float_max (Rabs (h ^ 2))) as [O | I].
  - now rewrite float_pow_overflow.
  - rewrite float_pow_in_range by lra. cbn [bind].
    now rewrite atmospheric_elem_fin.
Qed.

Lemma spherical_cap_fin (h : R) :
  spherical_bouguer_cap_correction (PyFloat (Fin h))
  = if Rlt_dec float_max (Rabs (h ^ 4)) then Raise OverflowError
    else Ok (PyFloat (Fin (spherical_cap_prefix h))).
Proof.
  rewrite spherical_bouguer_cap_correction_scalar.
  destruct (Rlt_dec float_max (Rabs (h ^ 4))) as [O | I].
  - destruct (float_pow_cases 2 (Fin h)) as [E2 | E2]; rewrite E2;
      [|reflexivity].
    destruct (float_pow_cases 3 (Fin h)) as [E3 | E3]; rewrite E3;
      [|reflexivity].
    cbn [bind]. now rewrite float_pow_overflow.
  - assert (I4 : Rabs (h ^ 4) <= float_max) by lra.
    destruct (lower_powers_in_range h I4) as [I2 I3].
    rewrite !float_pow_in_range by assumption. cbn [bind].
    now rewrite spherical_cap_elem_fin.
Qed.

Lemma atmospheric_overflow_at_1e200 :
  atmospheric_correction (PyFloat (Fin 1e200)) = Raise OverflowError.
Proof.
  rewrite atmospheric_correction_fin.
  destruct (Rlt_dec float_max (Rabs (1e200 ^ 2))) as [O | I];
    [reflexivity|].
  exfalso. apply I. rewrite Rabs_pos_eq by apply pow2_ge_0.
  unfold float_max. lra.
Qed.




(** C1 (the code falls short of it).  [spherical_bouguer_cap_correction]
    returns the linear and quadratic terms only, on a float64 array and on
    a plain float alike; on a plain float it raises [OverflowError] when
    the fourth power of the statement it drops leaves the float range.  At
    h = 1000 it returns 1.1108343 where the documented quartic gives
    1.110937573307, and for every h the two differ by
    1.002709e-13 h^3 + 3.002407e-18 h^4. *)
Theorem spherical_cap_returns_prefix :
  (forall t : list np_float,
     spherical_bouguer_cap_correction (NdArray t)
     = Ok (NdArray (map (f_map spherical_cap_prefix) t)))
  /\ (forall h : R,
        spherical_bouguer_cap_correction (PyFloat (Fin h))
        = if Rlt_dec float_max (Rabs (h ^ 4)) then Raise OverflowError
          else Ok (PyFloat (Fin (spherical_cap_prefix h))))
  /\ spherical_bouguer_cap_correction (PyFloat NaN) = Ok (PyFloat NaN)
  /\ spherical_bouguer_cap_correction (PyFloat (Fin 1000))
     = Ok (PyFloat (Fin 1.1108343))
  /\ spherical_cap_documented 1000 = 1.110937573307
  /\ spherical_bouguer_cap_correction (PyFloat (Fin 1000))
     <> Ok (PyFloat (Fin (spherical_cap_documented 1000)))
  /\ (forall h : R,
        spherical_cap_documented h - spherical_cap_prefix h
        = 1.002709e-13 * h ^ 3 + 3.002407e-18 * h ^ 4).
Proof.
  assert (E : spherical_bouguer_cap_correction (PyFloat (Fin 1000))
              = Ok (PyFloat (Fin (spherical_cap_prefix 1000)))).
  { rewrite spherical_cap_fin. pose proof float_max_lower as HM.
    destruct (Rlt_dec float_max (Rabs (1000 ^ 4))) as [O | I];
      [|reflexivity].
    exfalso. rewrite Rabs_pos_eq in O by lra. lra. }
  split; [|split; [exact spherical_cap_fin|split; [|split; [|split;
    [|split]]]]].
  - intros t. rewrite spherical_bouguer_cap_correction_array. do 2 f_equal.
    apply map_ext, spherical_cap_elem_prefix.
  - now rewrite spherical_bouguer_cap_correction_scalar.
  - rewrite E. unfold spherical_cap_prefix.
    apply (f_equal (fun r => Ok (PyFloat (Fin r)))). lra.
  - unfold spherical_cap_documented. lra.
  - rewrite E. intros H. injection H as H.
    unfold spherical_cap_prefix, spherical_cap_documented in H. lra.
  - intros h. unfold spherical_cap_prefix, spherical_cap_documented. field.
Qed.

(** ** Bouguer: branches, masks, monotonicity *)

Lemma f_ltb0_neg (h : R) : h < 0 -> f_ltb0 (Fin h) = true.
Proof. intros H. simpl. destruct (Rlt_dec h 0); [reflexivity | lra]. Qed.

Lemma f_ltb0_nonneg (h : R) : 0 <= h -> f_ltb0 (Fin h) = false.
Proof. intros H. simpl. destruct (Rlt_dec h 0); [lra | reflexivity]. Qed.

Lemma bouguer_elem_land (G dc dw h : R) :
  0 <= h ->
  bouguer_elem G (Fin dc) (Fin dw) (Fin h) = Fin (1e5 * 2 * PI * G * dc * h).
Proof.
  intros H. unfold bouguer_elem, density_elem.
  rewrite (f_ltb0_nonneg h H). reflexivity.
Qed.

Lemma bouguer_elem_ocean (G dc dw h : R) :
  h < 0 ->
  bouguer_elem G (Fin dc) (Fin dw) (Fin h)
  = Fin (1e5 * 2 * PI * G * (-1 * (dw - dc)) * h).
Proof.
  intros H. unfold bouguer_elem, density_elem.
  rewrite (f_ltb0_neg h H). reflexivity.
Qed.

Lemma bouguer_elem_not_nan (G dc dw : R) (x : np_float) :
  not_nan x -> not_nan (bouguer_elem G (Fin dc) (Fin dw) x).
Proof.
  destruct x as [h|]; [intros _ | discriminate].
  unfold bouguer_elem, density_elem. now destruct (f_ltb0 (Fin h)).
Qed.

Lemma density_elem_not_nan (dc dw : R) (x : np_float) :
  not_nan (density_elem (Fin dc) (Fin dw) x).
Proof. unfold density_elem. now destruct (f_ltb0 x). Qed.

Lemma bouguer_value_eq (G dc dw h : R) :
  bouguer_value G dc dw h
  = if Rlt_dec h 0 then 1e5 * 2 * PI * G * (-1 * (dw - dc)) * h
    else 1e5 * 2 * PI * G * dc * h.
Proof.
  unfold bouguer_value. rewrite bouguer_correction_array. simpl map.
  destruct (Rlt_dec h 0) as [Hn | Hp].
  - now rewrite bouguer_elem_ocean.
  - now rewrite bouguer_elem_land by lra.
Qed.

Lemma bouguer_elem_value (G dc dw h : R) :
  bouguer_elem G (Fin dc) (Fin dw) (Fin h) = Fin (bouguer_value G dc dw h).
Proof.
  rewrite bouguer_value_eq. destruct (Rlt_dec h 0) as [Hn | Hp].
  - now apply bouguer_elem_ocean.
  - apply bouguer_elem_land. lra.
Qed.

(** C3.  On an array, [bouguer_correction] returns an array of the same
    length; a land element h >= 0 yields 1e5 * 2 pi G rho_c h, an ocean
    element h < 0 yields 1e5 * 2 pi G (rho_w - rho_c) |h|, an element 0
    yields 0; with the default densities the density array holds 1630 at
    every ocean element. *)
Theorem bouguer_correction_branches
  (G : R) (t : list np_float) (density_crust density_water : R) :
  exists out : list np_float,
    bouguer_correction G (NdArray t) (Fin density_crust) (Fin density_water)
    = Ok (NdArray out)
    /\ length out = length t
    /\ forall (i : nat) (h : R),
         nth_error t i = Some (Fin h) ->
         (0 <= h ->
          nth_error out i
          = Some (Fin (1e5 * 2 * PI * G * density_crust * h)))
         /\ (h < 0 ->
             nth_error out i
             = Some (Fin (1e5 * 2 * PI * G
                          * (density_water - density_crust) * Rabs h)))
         /\ (h = 0 -> nth_error out i = Some (Fin 0))
         /\ (h < 0 ->
             exists density : list np_float,
               bouguer_density (NdArray t) (Fin 2670) (Fin 1040) = Ok density
               /\ nth_error density i = Some (Fin 1630)).
Proof.
  exists (map (bouguer_elem G (Fin density_crust) (Fin density_water)) t).
  split; [apply bouguer_correction_array|].
  split; [apply length_map|].
  intros i h Hi. rewrite nth_error_map, Hi. cbn [option_map].
  repeat split.
  - intros H. now rewrite bouguer_elem_land.
  - intros H. rewrite bouguer_elem_ocean by exact H.
    rewrite (Rabs_left h H). do 2 f_equal. ring.
  - intros H. rewrite bouguer_elem_land by lra. subst h. do 2 f_equal. ring.
  - intros H. exists (map (density_elem (Fin 2670) (Fin 1040)) t).
    split; [apply bouguer_density_array|].
    rewrite nth_error_map, Hi. cbn [option_map]. unfold density_elem.
    rewrite (f_ltb0_neg h H). simpl. do 2 f_equal. lra.
Qed.

(** C8.  The ocean mask and the continent mask have the array's length and
    at every index exactly one of them is set; the density array starts as
    NaN everywhere and holds no NaN after the two masked assignments; on a
    topography without NaN the returned array has the same length and holds
    no NaN. *)
Theorem bouguer_masks_partition
  (G : R) (t : list np_float) (density_crust density_water : R) :
  Forall not_nan t ->
  let oceans := np_array_lt0 (NdArray t) in
  let continent := np_logical_not oceans in
  (length oceans = length t /\ length continent = length t
   /\ forall i : nat, (i < length t)%nat ->
        exists b : bool,
          nth_error oceans i = Some b /\ nth_error continent i = Some (negb b))
  /\ Forall (fun x => is_nan x = true) (np_full [length t] NaN)
  /\ (exists density : list np_float,
        bouguer_density (NdArray t) (Fin density_crust) (Fin density_water)
        = Ok density
        /\ length density = length t /\ Forall not_nan density)
  /\ (exists out : list np_float,
        bouguer_correction G (NdArray t)
          (Fin density_crust) (Fin density_water) = Ok (NdArray out)
        /\ length out = length t /\ Forall not_nan out).
Proof.
  intros Ht oceans continent. repeat split.
  - apply length_map.
  - unfold continent, np_logical_not, oceans. simpl. now rewrite !length_map.
  - intros i Hi. unfold continent, np_logical_not, oceans. simpl.
    destruct (nth_error t i) as [x|] eqn:E.
    + exists (f_ltb0 x). now rewrite !nth_error_map, E.
    + apply nth_error_None in E. lia.
  - unfold np_full. apply Forall_forall. intros x Hx.
    apply repeat_spec in Hx. now subst x.
  - exists (map (density_elem (Fin density_crust) (Fin density_water)) t).
    split; [apply bouguer_density_array|]. split; [apply length_map|].
    apply Forall_forall. intros y Hy. apply in_map_iff in Hy.
    destruct Hy as (x & <- & _). apply density_elem_not_nan.
  - exists (map (bouguer_elem G (Fin density_crust) (Fin density_water)) t).
    split; [apply bouguer_correction_array|]. split; [apply length_map|].
    apply Forall_forall. intros y Hy. apply in_map_iff in Hy.
    destruct Hy as (x & <- & Hx). apply bouguer_elem_not_nan.
    now apply (proj1 (Forall_forall _ _) Ht).
Qed.

Section BouguerMonotone.

Variables G density_crust density_water : R.
Hypothesis G_pos : 0 < G.
Hypothesis water_nonneg : 0 <= density_water.
Hypothesis crust_denser : density_water < density_crust.

Local Abbreviation slope_land := (bouguer_slope_land G density_crust).
Local Abbreviation slope_ocean :=
  (bouguer_slope_ocean G density_crust density_water).

Lemma unit_slope_pos : 0 < 1e5 * (2 * PI * G).
Proof.
  pose proof PI_RGT_0 as HPI.
  assert (0 < PI * G) by now apply Rmult_lt_0_compat.
  lra.
Qed.

Lemma slope_land_pos : 0 < slope_land.
Proof.
  unfold bouguer_slope_land. pose proof unit_slope_pos as Hc.
  replace (1e5 * (2 * PI * G * density_crust))
    with (1e5 * (2 * PI * G) * density_crust) by ring.
  apply Rmult_lt_0_compat; lra.
Qed.

Lemma slope_ocean_pos : 0 < slope_ocean.
Proof.
  unfold bouguer_slope_ocean. pose proof unit_slope_pos as Hc.
  replace (1e5 * (2 * PI * G * (density_crust - density_water)))
    with (1e5 * (2 * PI * G) * (density_crust - density_water)) by ring.
  apply Rmult_lt_0_compat; lra.
Qed.

Lemma slope_ocean_le_land : slope_ocean <= slope_land.
Proof.
  unfold bouguer_slope_ocean, bouguer_slope_land. pose proof unit_slope_pos as Hc.
  assert (0 <= 1e5 * (2 * PI * G) * density_water)
    by (apply Rmult_le_pos; lra).
  lra.
Qed.

Lemma bouguer_value_land (h : R) :
  0 <= h -> bouguer_value G density_crust density_water h = slope_land * h.
Proof.
  intros H. rewrite bouguer_value_eq.
  destruct (Rlt_dec h 0); [lra | unfold bouguer_slope_land; ring].
Qed.

Lemma bouguer_value_ocean (h : R) :
  h < 0 -> bouguer_value G density_crust density_water h = slope_ocean * h.
Proof.
  intros H. rewrite bouguer_value_eq.
  destruct (Rlt_dec h 0); [unfold bouguer_slope_ocean; ring | lra].
Qed.

Lemma bouguer_value_monotone (h1 h2 : R) :
  h1 <= h2 ->
  bouguer_value G density_crust density_water h1
  <= bouguer_value G density_crust density_water h2.
Proof.
  intros H. pose proof slope_land_pos as HA. pose proof slope_ocean_pos as HB.
  destruct (Rlt_dec h1 0) as [N1 | P1]; destruct (Rlt_dec h2 0) as [N2 | P2].
  - rewrite !bouguer_value_ocean by assumption. nra.
  - rewrite bouguer_value_ocean by assumption.
    rewrite bouguer_value_land by lra. nra.
  - lra.
  - rewrite !bouguer_value_land by lra. nra.
Qed.

(** The two slopes bound the variation: the function is Lipschitz. *)
Lemma bouguer_value_lipschitz (x y : R) :
  Rabs (bouguer_value G density_crust density_water x
        - bouguer_value G density_crust density_water y)
  <= slope_land * Rabs (x - y).
Proof.
  pose proof slope_land_pos as HA. pose proof slope_ocean_pos as HB.
  pose proof slope_ocean_le_land as HBA.
  destruct (Rlt_dec x 0) as [Nx | Px]; destruct (Rlt_dec y 0) as [Ny | Py];
    rewrite ?(bouguer_value_ocean x), ?(bouguer_value_ocean y),
      ?(bouguer_value_land x), ?(bouguer_value_land y) by lra;
    unfold Rabs; repeat destruct Rcase_abs; nra.
Qed.

Lemma bouguer_value_continuous :
  continuity (bouguer_value G density_crust density_water).
Proof.
  intros x eps Heps. pose proof slope_land_pos as HA.
  exists (eps / slope_land). split.
  - now apply Rdiv_lt_0_compat.
  - intros y [_ Hy]. simpl in *. unfold R_dist in *.
    eapply Rle_lt_trans; [apply bouguer_value_lipschitz|].
    apply (Rmult_lt_compat_l slope_land) in Hy; [|exact HA].
    replace (slope_land * (eps / slope_land)) with eps in Hy
      by (field; lra).
    exact Hy.
Qed.

End BouguerMonotone.

(** C9.  With a positive gravitational constant and densities
    rho_c > rho_w >= 0, the correction is monotone non-decreasing in the
    topography: the land branch is linear with slope 1e5 * 2 pi G rho_c, the
    ocean branch is linear with slope 1e5 * 2 pi G (rho_c - rho_w), both
    slopes are positive, the branches agree (value 0) at h = 0, and the
    correction is continuous. *)
Theorem bouguer_correction_monotone
  (G density_crust density_water h1 h2 : R) :
  0 < G -> 0 <= density_water -> density_water < density_crust ->
  h1 <= h2 ->
  (exists b1 b2 : R,
     bouguer_correction G (NdArray [Fin h1])
       (Fin density_crust) (Fin density_water) = Ok (NdArray [Fin b1])
     /\ bouguer_correction G (NdArray [Fin h2])
          (Fin density_crust) (Fin density_water) = Ok (NdArray [Fin b2])
     /\ b1 <= b2)
  /\ (forall h : R,
        bouguer_correction G (NdArray [Fin h])
          (Fin density_crust) (Fin density_water)
        = Ok (NdArray [Fin (bouguer_value G density_crust density_water h)]))
  /\ (forall h : R, 0 <= h ->
        bouguer_value G density_crust density_water h
        = 1e5 * (2 * PI * G * density_crust) * h)
  /\ 0 < 1e5 * (2 * PI * G * density_crust)
  /\ (forall h : R, h < 0 ->
        bouguer_value G density_crust density_water h
        = 1e5 * (2 * PI * G * (density_crust - density_water)) * h)
  /\ 0 < 1e5 * (2 * PI * G * (density_crust - density_water))
  /\ bouguer_value G density_crust density_water 0 = 0
  /\ continuity (bouguer_value G density_crust density_water).
Proof.
  intros HG Hw Hc H12.
  assert (E : forall h : R,
             bouguer_correction G (NdArray [Fin h])
               (Fin density_crust) (Fin density_water)
             = Ok (NdArray
                     [Fin (bouguer_value G density_crust density_water h)])).
  { intros h. rewrite bouguer_correction_array. simpl map.
    now rewrite bouguer_elem_value. }
  split; [|split; [exact E|]].
  - exists (bouguer_value G density_crust density_water h1),
      (bouguer_value G density_crust density_water h2).
    split; [apply E|]. split; [apply E|].
    now apply bouguer_value_monotone.
  - split; [intros h Hh; now apply bouguer_value_land|].
    split; [now apply (slope_land_pos G density_crust density_water)|].
    split; [intros h Hh; now apply bouguer_value_ocean|].
    split; [now apply (slope_ocean_pos G density_crust density_water)|].
    split; [|now apply bouguer_value_continuous].
    rewrite bouguer_value_land by lra. ring.
Qed.

(** ** Concrete runs *)

Lemma bouguer_correction_branches_witness :
  exists out : list np_float,
    bouguer_correction 6.673e-11 (NdArray [Fin 250; Fin (-1200); Fin 0])
      (Fin 2670) (Fin 1040) = Ok (NdArray out)
    /\ nth_error out 0 = Some (Fin (1e5 * 2 * PI * 6.673e-11 * 2670 * 250))
    /\ nth_error out 1
       = Some (Fin (1e5 * 2 * PI * 6.673e-11 * (1040 - 2670) * Rabs (-1200)))
    /\ nth_error out 2 = Some (Fin 0).
Proof.
  destruct (bouguer_correction_branches 6.673e-11
              [Fin 250; Fin (-1200); Fin 0] 2670 1040) as (out & E & _ & H).
  exists out. split; [exact E|].
  destruct (H 0%nat 250 eq_refl) as (L & _).
  destruct (H 1%nat (-1200) eq_refl) as (_ & O & _).
  destruct (H 2%nat 0 eq_refl) as (_ & _ & Z & _).
  split; [apply L; lra|]. split; [apply O; lra|]. now apply Z.
Defined.

Lemma bouguer_masks_partition_witness :
  Forall not_nan [Fin 250; Fin (-1200); Fin 0]
  /\ exists out : list np_float,
       bouguer_correction 6.673e-11 (NdArray [Fin 250; Fin (-1200); Fin 0])
         (Fin 2670) (Fin 1040) = Ok (NdArray out)
       /\ length out = 3%nat /\ Forall not_nan out.
Proof.
  assert (H : Forall not_nan [Fin 250; Fin (-1200); Fin 0])
    by (repeat constructor).
  split; [exact H|].
  exact (proj2 (proj2 (proj2
           (bouguer_masks_partition 6.673e-11 _ 2670 1040 H)))).
Defined.

Lemma bouguer_correction_monotone_witness :
  0 < 6.673e-11 /\ 0 <= 1040 /\ 1040 < 2670 /\ -1200 <= 250
  /\ exists b1 b2 : R,
       bouguer_correction 6.673e-11 (NdArray [Fin (-1200)])
         (Fin 2670) (Fin 1040) = Ok (NdArray [Fin b1])
       /\ bouguer_correction 6.673e-11 (NdArray [Fin 250])
            (Fin 2670) (Fin 1040) = Ok (NdArray [Fin b2])
       /\ b1 <= b2.
Proof.
  assert (H1 : 0 < 6.673e-11) by lra.
  assert (H2 : 0 <= 1040) by lra.
  assert (H3 : 1040 < 2670) by lra.
  assert (H4 : -1200 <= 250) by lra.
  repeat (split; [assumption|]).
  exact (proj1 (bouguer_correction_monotone 6.673e-11 2670 1040 (-1200) 250
                  H1 H2 H3 H4)).
Defined.

(** ** Syntax of the module *)

Lemma free_air_body_lines :
  map PySyntax.check_line
    (PySyntax.logical_lines 0 [] PySyntax.free_air_correction_body)
  = [PySyntax.Accepted; PySyntax.Accepted; PySyntax.Rejected;
     PySyntax.Accepted].
Proof. vm_compute. reflexivity. Qed.

Lemma eotvos_body_lines :
  map PySyntax.check_line
    (PySyntax.logical_lines 0 [] PySyntax.eotvos_correction_body)
  = [PySyntax.Accepted; PySyntax.Rejected; PySyntax.Accepted;
     PySyntax.Accepted].
Proof. vm_compute. reflexivity. Qed.

Lemma py_compile_free_air :
  py_compile PySyntax.free_air_correction_body = Raise SyntaxError.
Proof. vm_compute. reflexivity. Qed.

Lemma py_compile_eotvos :
  py_compile PySyntax.eotvos_correction_body = Raise SyntaxError.
Proof. vm_compute. reflexivity. Qed.

Lemma import_raises : import_gravity_corrections = Raise SyntaxError.
Proof. vm_compute. reflexivity. Qed.

(** C10.  In [free_air_correction] the line that opens with [*], and in
    [eotvos_correction] the line that ends with [*], are rejected as
    statements while every other line of the five bodies is accepted; the
    module therefore does not compile, the import raises [SyntaxError], and
    a call of any of the five functions through the module raises it too. *)
Theorem module_does_not_compile :
  (exists rest, nth_error PySyntax.free_air_correction_body 2
                = Some (PySyntax.STAR :: rest)
                /\ PySyntax.check_line (PySyntax.STAR :: rest)
                   = PySyntax.Rejected)
  /\ (exists line, nth_error PySyntax.eotvos_correction_body 1 = Some line
                   /\ last line PySyntax.STRING = PySyntax.STAR
                   /\ PySyntax.check_line line = PySyntax.Rejected)
  /\ map PySyntax.check_line
       (PySyntax.logical_lines 0 [] PySyntax.free_air_correction_body)
     = [PySyntax.Accepted; PySyntax.Accepted; PySyntax.Rejected;
        PySyntax.Accepted]
  /\ map PySyntax.check_line
       (PySyntax.logical_lines 0 [] PySyntax.eotvos_correction_body)
     = [PySyntax.Accepted; PySyntax.Rejected; PySyntax.Accepted;
        PySyntax.Accepted]
  /\ PySyntax.compiles PySyntax.bouguer_correction_body = true
  /\ PySyntax.compiles PySyntax.atmospheric_correction_body = true
  /\ PySyntax.compiles PySyntax.spherical_bouguer_cap_correction_body = true
  /\ PySyntax.compiles PySyntax.gravity_corrections_py = false
  /\ import_gravity_corrections = Raise SyntaxError
  /\ (forall G t dc dw,
        call_imported (bouguer_correction G t dc dw) = Raise SyntaxError)
  /\ (forall t, call_imported (atmospheric_correction t) = Raise SyntaxError)
  /\ (forall t,
        call_imported (spherical_bouguer_cap_correction t)
        = Raise SyntaxError)
  /\ (forall t l, call_imported (free_air_correction t l) = Raise SyntaxError)
  /\ (forall l v a,
        call_imported (eotvos_correction l v a) = Raise SyntaxError).
Proof.
  split. { eexists. split; [reflexivity | vm_compute; reflexivity]. }
  split. { eexists. split; [reflexivity|].
           split; [reflexivity | vm_compute; reflexivity]. }
  split; [exact free_air_body_lines|].
  split; [exact eotvos_body_lines|].
  do 4 (split; [vm_compute; reflexivity|]).
  split; [exact import_raises|].
  unfold call_imported. rewrite import_raises. cbn [bind].
  repeat split.
Qed.

(** A line that opens with [*] is rejected whatever follows. *)
Lemma star_line_rejected (rest : list PySyntax.token) :
  PySyntax.check_line (PySyntax.STAR :: rest) = PySyntax.Rejected.
Proof.
  unfold PySyntax.check_line, PySyntax.budget. cbn [length].
  replace (8 * S (S (length rest)))%nat
    with (S (S (S (S (S (S (S (S (8 + 8 * length rest))))))))) by lia.
  reflexivity.
Qed.

(** ** Free air and Eotvos *)

Lemma sin_square_in_range (x : R) : Rabs (sin x ^ 2) <= float_max.
Proof.
  pose proof float_max_lower as HM. pose proof (SIN_bound x) as [Hl Hu].
  rewrite Rabs_pos_eq by apply pow2_ge_0.
  assert (sin x ^ 2 <= 1) by nra. lra.
Qed.

(** C2 (the code falls short of it).  [free_air_correction] raises
    [SyntaxError] on every input; the one statement of it that parses binds
    -(0.3087691 - 0.0004398 sin^2 phi), without the factor h and without
    the quadratic term, which is -0.3087691 at latitude 0 whatever the
    topography; the documented expression gives -308.696975 at h = 1000,
    phi = 0 and 0 at h = 0. *)
Theorem free_air_correction_raises :
  (forall topography latitude : pyobj,
     free_air_correction topography latitude = Raise SyntaxError)
  /\ (forall phi : R,
        free_air_assignment (PyFloat (Fin phi))
        = Ok (PyFloat
                (Fin (- (0.3087691 - 0.0004398 * sin (radians phi) ^ 2)))))
  /\ free_air_assignment (PyFloat (Fin 0)) = Ok (PyFloat (Fin (-0.3087691)))
  /\ free_air_documented 1000 0 = -308.696975
  /\ (forall phi : R, free_air_documented 0 phi = 0).
Proof.
  assert (A : forall phi : R,
             free_air_assignment (PyFloat (Fin phi))
             = Ok (PyFloat
                     (Fin (- (0.3087691
                              - 0.0004398 * sin (radians phi) ^ 2))))).
  { intros phi. unfold free_air_assignment. py_eval.
    rewrite float_pow_in_range by apply sin_square_in_range.
    py_eval. reflexivity. }
  assert (S0 : sin (radians 0) = 0).
  { unfold radians. now rewrite Rmult_0_l, sin_0. }
  split; [|split; [exact A|split; [|split]]].
  - intros t l. unfold free_air_correction.
    now rewrite py_compile_free_air.
  - rewrite A, S0. apply (f_equal (fun r => Ok (PyFloat (Fin r)))). lra.
  - unfold free_air_documented. rewrite S0. lra.
  - intros phi. unfold free_air_documented. ring.
Qed.

(** C4 (the code falls short of it).  [eotvos_correction] raises
    [SyntaxError] on every input, velocity 0 included; the expression with
    its two lines joined would give 0 at velocity 0 for every latitude and
    azimuth. *)
Theorem eotvos_correction_raises :
  (forall latitude velocity azimuth : pyobj,
     eotvos_correction latitude velocity azimuth = Raise SyntaxError)
  /\ eotvos_correction (PyFloat (Fin 45)) (PyFloat (Fin 0)) (PyFloat (Fin 90))
     <> Ok (PyFloat (Fin 0))
  /\ (forall lat az : R,
        eotvos_joined (PyFloat (Fin lat)) (PyFloat (Fin 0)) (PyFloat (Fin az))
        = Ok (PyFloat (Fin 0))).
Proof.
  assert (E : forall latitude velocity azimuth : pyobj,
             eotvos_correction latitude velocity azimuth
             = Raise SyntaxError).
  { intros l v a. unfold eotvos_correction. now rewrite py_compile_eotvos. }
  split; [exact E|]. split.
  - rewrite E. discriminate.
  - intros lat az. unfold eotvos_joined. py_eval.
    rewrite float_pow_in_range.
    + py_eval. apply (f_equal (fun r => Ok (PyFloat (Fin r)))). ring.
    + pose proof float_max_lower. replace (0 ^ 2) with 0 by ring.
      rewrite Rabs_R0. lra.
Qed.

(** ** Point masses *)

Lemma kernel_g_z_opp (G : R) (o s : R * R * R) (m : R) :
  kernel_g_z G o s (- m) = - kernel_g_z G o s m.
Proof.
  unfold kernel_g_z. destruct o as [[e n] u], s as [[e_p n_p] u_p].
  unfold Rdiv. ring.
Qed.

Lemma sum_sources_opp (G : R) (o : R * R * R) (srcs : list (R * R * R))
  (masses : list R) :
  sum_sources G o srcs (map Ropp masses) = - sum_sources G o srcs masses.
Proof.
  revert masses. induction srcs as [|s srcs IH]; intros [|m masses]; simpl;
    try ring.
  rewrite IH, kernel_g_z_opp. ring.
Qed.

(** C7.  Negating every mass negates every element of the field returned
    by [point_mass_gravity], and leaves a shape error a shape error; on the
    two sources of the example script the call returns a field. *)
Theorem point_mass_gravity_negates_masses
  (G : R) (coordinates points : list R * list R * list R) (masses : list R) :
  point_mass_gravity G coordinates points (map Ropp masses)
  = fmap (map Ropp) (point_mass_gravity G coordinates points masses)
  /\ exists field : list R,
       point_mass_gravity G ([0; 1e3], [0; 1e3], [500; 500])
         example_points example_masses = Ok field
       /\ length field = 2%nat
       /\ point_mass_gravity G ([0; 1e3], [0; 1e3], [500; 500])
            example_points (map Ropp example_masses) = Ok (map Ropp field).
Proof.
  split.
  - unfold point_mass_gravity.
    destruct (zip_coordinates coordinates) as [obs | e]; [|reflexivity].
    destruct (zip_coordinates points) as [srcs | e]; [|reflexivity].
    cbn [bind]. rewrite length_map.
    destruct (Nat.eqb (length srcs) (length masses)); [|reflexivity].
    unfold fmap. cbn [bind]. f_equal. rewrite map_map.
    apply map_ext. intros o. apply sum_sources_opp.
  - eexists. split; [reflexivity|]. split; [reflexivity|].
    unfold point_mass_gravity, example_points, example_masses.
    cbn [zip_coordinates length Nat.eqb andb combine bind map].
    do 2 f_equal; [|f_equal]; rewrite <- sum_sources_opp; reflexivity.
Qed.

(** ** Scalars, arrays and objects *)

Lemma first_assignment (t : list np_float) (dc : np_float) :
  setitem_mask (np_full [length t] NaN)
    (np_logical_not (np_array_lt0 (NdArray t))) dc
  = Ok (map (fun y => if negb (f_ltb0 y) then dc else NaN) t).
Proof.
  unfold np_full, np_logical_not, np_array_lt0. cbn [fold_right].
  rewrite Nat.mul_1_r, (repeat_as_map NaN t), map_map.
  apply (setitem_mask_maps (fun _ => NaN) (fun x => negb (f_ltb0 x))).
Qed.

Lemma second_assignment (t : list np_float) (dc dw : np_float) :
  setitem_mask (map (fun y => if negb (f_ltb0 y) then dc else NaN) t)
    (np_array_lt0 (NdArray t)) (f_mul (Fin (-1)) (f_sub dw dc))
  = Ok (map (density_elem dc dw) t).
Proof.
  unfold np_array_lt0.
  rewrite (setitem_mask_maps
             (fun y => if negb (f_ltb0 y) then dc else NaN) f_ltb0).
  f_equal. apply map_ext. intros x. unfold density_elem.
  now destruct (f_ltb0 x).
Qed.

Lemma bouguer_product (G : R) (t : list np_float) (dc dw : np_float) :
  (#1e5 * #2 * #PI * #G * var (NdArray (map (density_elem dc dw) t))
   * var (NdArray t))%py
  = Ok (NdArray (map (bouguer_elem G dc dw) t)).
Proof.
  py_eval. rewrite broadcast_same_length by now rewrite length_map.
  now rewrite map2_map_l.
Qed.

Lemma nth_error_middle {A : Type} (l1 : list A) (a : A) (l2 : list A) :
  nth_error (l1 ++ a :: l2) (length l1) = Some a.
Proof. induction l1 as [|x l1 IH]; simpl; [reflexivity | exact IH]. Qed.

Lemma update_middle {A : Type} (l1 : list A) (a b : A) (l2 : list A) :
  Heap.update (length l1) b (l1 ++ a :: l2) = l1 ++ b :: l2.
Proof. induction l1 as [|x l1 IH]; simpl; [reflexivity | now rewrite IH]. Qed.

Lemma heap_bouguer_array (G : R) (dc dw : np_float)
  (h1 : Heap.heap) (t : list np_float) (h2 : Heap.heap) :
  Heap.bouguer_correction G (Heap.VRef (length h1)) dc dw (h1 ++ t :: h2)
  = (Ok (Heap.VRef (S (length (h1 ++ t :: h2)))),
     (h1 ++ t :: h2)
     ++ [map (density_elem dc dw) t; map (bouguer_elem G dc dw) t]).
Proof.
  set (H := h1 ++ t :: h2).
  unfold Heap.bouguer_correction, Heap.mbind, Heap.deref at 1.
  unfold H at 1. rewrite nth_error_middle. fold H.
  unfold Heap.lift, shape, Heap.alloc, Heap.setitem_mask_inplace.
  rewrite (nth_error_middle H _ []), first_assignment.
  rewrite (update_middle H _ _ []).
  rewrite (nth_error_middle H _ []), second_assignment.
  rewrite (update_middle H _ _ []).
  unfold Heap.deref. rewrite (nth_error_middle H _ []).
  rewrite bouguer_product.
  unfold Heap.new_object, Heap.mbind, Heap.alloc, Heap.ret.
  rewrite length_app, <- app_assoc. cbn [length app].
  now rewrite Nat.add_1_r.
Qed.

Lemma heap_bouguer_frame (G : R) (dc dw : np_float) (v : Heap.value)
  (h : Heap.heap) :
  exists fresh : Heap.heap,
    snd (Heap.bouguer_correction G v dc dw h) = h ++ fresh.
Proof.
  destruct v as [x | p].
  - exists []. now rewrite app_nil_r.
  - destruct (nth_error h p) as [t|] eqn:E.
    + apply nth_error_split in E. destruct E as (h1 & h2 & -> & <-).
      rewrite heap_bouguer_array. eexists. reflexivity.
    + exists []. rewrite app_nil_r.
      unfold Heap.bouguer_correction, Heap.mbind, Heap.deref.
      now rewrite E.
Qed.

(** Evaluating an expression and making its result an object leaves
    every earlier object alone, whatever the expression returns or
    raises. *)
Lemma heap_expression_frame (f : pyobj -> result pyobj)
  (v : Heap.value) (h : Heap.heap) :
  exists fresh : Heap.heap,
    snd (Heap.mbind (Heap.deref v)
           (fun t => Heap.mbind (Heap.lift (f t)) Heap.new_object) h)
    = h ++ fresh.
Proof.
  unfold Heap.mbind, Heap.deref, Heap.lift.
  assert (N : forall x : pyobj,
             exists fresh : Heap.heap,
               snd (let (r, h') := (f x, h) in
                    match r with
                    | Ok a => Heap.new_object a h'
                    | Raise e => (Raise e, h')
                    end) = h ++ fresh).
  { intros x. destruct (f x) as [[a | out] | e]; simpl.
    - exists []. now rewrite app_nil_r.
    - eexists. reflexivity.
    - exists []. now rewrite app_nil_r. }
  destruct v as [x | p]; [apply N|].
  destruct (nth_error h p) as [t|]; [apply N|].
  exists []. now rewrite app_nil_r.
Qed.

Lemma fourth_power_in_range (h : R) :
  Rabs h <= 1e75 -> Rabs (h ^ 4) <= float_max.
Proof.
  intros H. apply Rabs_bounds in H. pose proof float_max_lower as HM.
  replace (h ^ 4) with ((h * h) * (h * h)) by ring.
  assert (0 <= h * h) by nra. assert (h * h <= 1e150) by nra.
  rewrite Rabs_pos_eq by nra.
  assert ((h * h) * (h * h) <= 1e300) by nra. lra.
Qed.

Lemma spherical_cap_overflow_at_1e100 :
  spherical_bouguer_cap_correction (PyFloat (Fin 1e100))
  = Raise OverflowError.
Proof.
  rewrite spherical_cap_fin.
  destruct (Rlt_dec float_max (Rabs (1e100 ^ 4))) as [O | I];
    [reflexivity|].
  exfalso. apply I. rewrite Rabs_pos_eq by lra. unfold float_max. lra.
Qed.

Lemma bouguer_scalar_counterexample :
  bouguer_correction 6.673e-11 (PyFloat (Fin 100)) (Fin 2670) (Fin 1040)
  = Raise AttributeError
  /\ ~ (exists v : pyobj,
          bouguer_correction 6.673e-11 (PyFloat (Fin 100))
            (Fin 2670) (Fin 1040) = Ok v).
Proof.
  split; [reflexivity|]. intros [v Hv].
  rewrite bouguer_correction_scalar in Hv. discriminate.
Qed.

(** C6, amended.  [atmospheric_correction] and
    [spherical_bouguer_cap_correction] take a float64 array and return an
    array of the same shape without raising; on a plain float h with
    |h| <= 1e75 they return a float, and where a power they compute leaves
    the float range (1e200 for the first, 1e100 for the second) they raise
    [OverflowError].  [bouguer_correction] takes an array and returns an
    array of the same length; on a plain scalar, which has no [shape], it
    raises [AttributeError].  None of the three changes an object that
    existed before the call: the heap after the call is the heap before it
    followed by new objects, and for [bouguer_correction] on an array
    these are the density array and the result. *)
Theorem corrections_scalar_or_array (G : R) (dc dw : np_float) :
  (forall t : list np_float,
     exists y : pyobj,
       atmospheric_correction (NdArray t) = Ok y
       /\ same_shape (NdArray t) y)
  /\ (forall t : list np_float,
        exists y : pyobj,
          spherical_bouguer_cap_correction (NdArray t) = Ok y
          /\ same_shape (NdArray t) y)
  /\ (forall h : R,
        Rabs h <= 1e75 ->
        exists y1 y2 : pyobj,
          atmospheric_correction (PyFloat (Fin h)) = Ok y1
          /\ same_shape (PyFloat (Fin h)) y1
          /\ spherical_bouguer_cap_correction (PyFloat (Fin h)) = Ok y2
          /\ same_shape (PyFloat (Fin h)) y2)
  /\ atmospheric_correction (PyFloat (Fin 1e200)) = Raise OverflowError
  /\ spherical_bouguer_cap_correction (PyFloat (Fin 1e100))
     = Raise OverflowError
  /\ (forall t : list np_float,
        exists out : list np_float,
          bouguer_correction G (NdArray t) dc dw = Ok (NdArray out)
          /\ length out = length t)
  /\ (forall x : np_float,
        bouguer_correction G (PyFloat x) dc dw = Raise AttributeError)
  /\ (forall (v : Heap.value) (h : Heap.heap),
        exists fresh : Heap.heap,
          snd (Heap.atmospheric_correction v h) = h ++ fresh)
  /\ (forall (v : Heap.value) (h : Heap.heap),
        exists fresh : Heap.heap,
          snd (Heap.spherical_bouguer_cap_correction v h) = h ++ fresh)
  /\ (forall (v : Heap.value) (h : Heap.heap),
        exists fresh : Heap.heap,
          snd (Heap.bouguer_correction G v dc dw h) = h ++ fresh)
  /\ (forall (h1 : Heap.heap) (t : list np_float) (h2 : Heap.heap),
        exists density out : list np_float,
          bouguer_correction G (NdArray t) dc dw = Ok (NdArray out)
          /\ Heap.bouguer_correction G (Heap.VRef (length h1)) dc dw
               (h1 ++ t :: h2)
             = (Ok (Heap.VRef (S (length (h1 ++ t :: h2)))),
                (h1 ++ t :: h2) ++ [density; out])).
Proof.
  split; [|split; [|split; [|split; [|split; [|split; [|split; [|split;
    [|split; [|split]]]]]]]]].
  - intros t. eexists. split; [apply atmospheric_correction_array|].
    simpl. now rewrite length_map.
  - intros t. eexists.
    split; [apply spherical_bouguer_cap_correction_array|].
    simpl. now rewrite length_map.
  - intros h Hh. pose proof (fourth_power_in_range h Hh) as H4.
    destruct (lower_powers_in_range h H4) as [H2 _].
    exists (PyFloat (Fin (atmospheric_documented h))),
      (PyFloat (Fin (spherical_cap_prefix h))).
    rewrite atmospheric_correction_fin, spherical_cap_fin.
    destruct (Rlt_dec float_max (Rabs (h ^ 2))); [exfalso; lra|].
    destruct (Rlt_dec float_max (Rabs (h ^ 4))); [exfalso; lra|].
    repeat split.
  - apply atmospheric_overflow_at_1e200.
  - apply spherical_cap_overflow_at_1e100.
  - intros t. eexists. split; [apply bouguer_correction_array|].
    apply length_map.
  - intros x. reflexivity.
  - intros v h. apply (heap_expression_frame atmospheric_correction).
  - intros v h.
    apply (heap_expression_frame spherical_bouguer_cap_correction).
  - intros v h. apply heap_bouguer_frame.
  - intros h1 t h2. eexists. eexists.
    split; [apply bouguer_correction_array | apply heap_bouguer_array].
Qed.

Lemma corrections_scalar_or_array_witness :
  Rabs 1000 <= 1e75
  /\ exists y1 y2 : pyobj,
       atmospheric_correction (PyFloat (Fin 1000)) = Ok y1
       /\ same_shape (PyFloat (Fin 1000)) y1
       /\ spherical_bouguer_cap_correction (PyFloat (Fin 1000)) = Ok y2
       /\ same_shape (PyFloat (Fin 1000)) y2.
Proof.
  assert (H : Rabs 1000 <= 1e75) by (rewrite Rabs_pos_eq; lra).
  split; [exact H|].
  exact (proj1 (proj2 (proj2
           (corrections_scalar_or_array 6.673e-11 (Fin 2670) (Fin 1040))))
           1000 H).
Defined.

(** ** Further properties of the Bouguer plate *)

Lemma bouguer_elem_nan (G : R) (dc dw : np_float) :
  bouguer_elem G dc dw NaN = NaN.
Proof. unfold bouguer_elem, density_elem. simpl. now destruct dc. Qed.

Lemma bouguer_elem_is_nan (G dc dw : R) (x : np_float) :
  is_nan (bouguer_elem G (Fin dc) (Fin dw) x) = is_nan x.
Proof.
  destruct x as [h|]; [|now rewrite bouguer_elem_nan].
  now rewrite bouguer_elem_value.
Qed.

(** X1.  With finite densities a NaN in the topography stays where it is: the
    returned array holds NaN at exactly the indices where the topography
    does. *)
Theorem bouguer_correction_nan_positions
  (G : R) (t : list np_float) (density_crust density_water : R) :
  exists out : list np_float,
    bouguer_correction G (NdArray t) (Fin density_crust) (Fin density_water)
    = Ok (NdArray out)
    /\ map is_nan out = map is_nan t.
Proof.
  eexists. split; [apply bouguer_correction_array|].
  rewrite map_map. apply map_ext. intros x. apply bouguer_elem_is_nan.
Qed.

(** X2.  The correction is computed element by element: the result for two
    arrays laid end to end is the two results laid end to end. *)
Theorem bouguer_correction_chunks
  (G : R) (t1 t2 : list np_float) (density_crust density_water : np_float) :
  exists out1 out2 : list np_float,
    bouguer_correction G (NdArray t1) density_crust density_water
    = Ok (NdArray out1)
    /\ bouguer_correction G (NdArray t2) density_crust density_water
       = Ok (NdArray out2)
    /\ bouguer_correction G (NdArray (t1 ++ t2)) density_crust density_water
       = Ok (NdArray (out1 ++ out2)).
Proof.
  eexists. eexists. rewrite !bouguer_correction_array.
  split; [reflexivity|]. split; [reflexivity|]. now rewrite map_app.
Qed.

(** X4.  With G > 0 and rho_c > rho_w >= 0 the correction never has the
    sign opposite to the topography: it is non-negative where the height
    is, non-positive where the height is. *)
Theorem bouguer_correction_sign
  (G density_crust density_water : R) (t : list np_float) :
  0 < G -> 0 <= density_water -> density_water < density_crust ->
  exists out : list np_float,
    bouguer_correction G (NdArray t) (Fin density_crust) (Fin density_water)
    = Ok (NdArray out)
    /\ forall (i : nat) (h : R),
         nth_error t i = Some (Fin h) ->
         exists b : R,
           nth_error out i = Some (Fin b)
           /\ (0 <= h -> 0 <= b) /\ (h <= 0 -> b <= 0).
Proof.
  intros HG Hw Hc. eexists. split; [apply bouguer_correction_array|].
  intros i h Hi. exists (bouguer_value G density_crust density_water h).
  rewrite nth_error_map, Hi. cbn [option_map].
  split; [now rewrite bouguer_elem_value|].
  assert (HA : 0 < bouguer_slope_land G density_crust)
    by (apply (slope_land_pos G density_crust density_water); assumption).
  assert (HB : 0 < bouguer_slope_ocean G density_crust density_water)
    by (apply slope_ocean_pos; assumption).
  split; intros Hh.
  - rewrite (bouguer_value_land G density_crust density_water) by lra. nra.
  - destruct (Rlt_dec h 0) as [N | P].
    + rewrite (bouguer_value_ocean G density_crust density_water) by lra.
      nra.
    + rewrite (bouguer_value_land G density_crust density_water) by lra.
      assert (h = 0) by lra. subst h. lra.
Qed.

Lemma bouguer_correction_sign_witness :
  exists out : list np_float,
    bouguer_correction 6.673e-11 (NdArray [Fin 250; Fin (-1200)])
      (Fin 2670) (Fin 1040) = Ok (NdArray out)
    /\ exists b : R, nth_error out 1 = Some (Fin b) /\ b <= 0.
Proof.
  assert (H1 : 0 < 6.673e-11) by lra.
  assert (H2 : 0 <= 1040) by lra.
  assert (H3 : 1040 < 2670) by lra.
  destruct (bouguer_correction_sign 6.673e-11 2670 1040
              [Fin 250; Fin (-1200)] H1 H2 H3) as (out & E & H).
  exists out. split; [exact E|].
  destruct (H 1%nat (-1200) eq_refl) as (b & Hb & _ & Hneg).
  exists b. split; [exact Hb | apply Hneg; lra].
Defined.

(** X5.  With G > 0 and rho_w >= 0 the two branches are the upper envelope of
    the two plate formulas: the correction is the larger of
    1e5 2 pi G rho_c h and 1e5 2 pi G (rho_c - rho_w) h. *)
Theorem bouguer_correction_upper_envelope
  (G density_crust density_water h : R) :
  0 < G -> 0 <= density_water ->
  bouguer_correction G (NdArray [Fin h])
    (Fin density_crust) (Fin density_water)
  = Ok (NdArray
          [Fin (Rmax (bouguer_slope_land G density_crust * h)
                  (bouguer_slope_ocean G density_crust density_water * h))]).
Proof.
  intros HG Hw. rewrite bouguer_correction_array. simpl map.
  rewrite bouguer_elem_value, bouguer_value_eq. do 4 f_equal.
  unfold bouguer_slope_land, bouguer_slope_ocean.
  pose proof PI_RGT_0 as HPI.
  assert (Hc : 0 <= 1e5 * (2 * PI * G) * density_water).
  { apply Rmult_le_pos; [|lra].
    assert (0 < PI * G) by now apply Rmult_lt_0_compat. lra. }
  destruct (Rlt_dec h 0) as [N | P].
  - rewrite Rmax_right; [ring | nra].
  - rewrite Rmax_left; [ring | nra].
Qed.

Lemma bouguer_correction_upper_envelope_witness :
  bouguer_correction 6.673e-11 (NdArray [Fin (-1200)]) (Fin 2670) (Fin 1040)
  = Ok (NdArray
          [Fin (Rmax (bouguer_slope_land 6.673e-11 2670 * -1200)
                  (bouguer_slope_ocean 6.673e-11 2670 1040 * -1200))]).
Proof.
  apply bouguer_correction_upper_envelope; lra.
Defined.

(** X6.  The water density enters only where the topography is below zero: on
    a topography with no negative element the result is the same for any
    two water densities, NaN included. *)
Theorem bouguer_correction_land_ignores_water
  (G : R) (t : list np_float) (density_crust w1 w2 : np_float) :
  Forall (fun x => match x with Fin h => 0 <= h | NaN => True end) t ->
  bouguer_correction G (NdArray t) density_crust w1
  = bouguer_correction G (NdArray t) density_crust w2.
Proof.
  intros Ht. rewrite !bouguer_correction_array. do 2 f_equal.
  apply map_ext_in. intros x Hx.
  pose proof (proj1 (Forall_forall _ _) Ht x Hx) as Hh.
  unfold bouguer_elem, density_elem. destruct x as [h|].
  - now rewrite (f_ltb0_nonneg h Hh).
  - reflexivity.
Qed.

Lemma bouguer_correction_land_ignores_water_witness :
  bouguer_correction 6.673e-11 (NdArray [Fin 250; Fin 0; NaN])
    (Fin 2670) (Fin 1040)
  = bouguer_correction 6.673e-11 (NdArray [Fin 250; Fin 0; NaN])
      (Fin 2670) NaN.
Proof.
  apply bouguer_correction_land_ignores_water.
  repeat constructor; lra.
Defined.

(** X7.  A NaN crustal density reaches every element, land or ocean: the result
    is NaN throughout. *)
Theorem bouguer_correction_nan_crust
  (G : R) (t : list np_float) (density_water : np_float) :
  bouguer_correction G (NdArray t) NaN density_water
  = Ok (NdArray (repeat NaN (length t))).
Proof.
  rewrite bouguer_correction_array, (repeat_as_map NaN t). do 2 f_equal.
  apply map_ext. intros x. unfold bouguer_elem, density_elem.
  destruct (f_ltb0 x), density_water; reflexivity.
Qed.

(** ** Further properties of the polynomial corrections *)

Lemma atmospheric_documented_lower (h : R) :
  0.1857 <= atmospheric_documented h.
Proof.
  unfold atmospheric_documented.
  pose proof (pow2_ge_0 (h - 1237500 / 89)) as Hsq. nra.
Qed.

(** X9.  On a float64 array every element of the atmospheric correction
    that is not NaN is at least 0.1857 mGal, and so is the value returned
    for a plain float h with |h| <= 1e150: the quadratic has no real
    root. *)
Theorem atmospheric_correction_positive :
  (forall t : list np_float,
     exists out : list np_float,
       atmospheric_correction (NdArray t) = Ok (NdArray out)
       /\ length out = length t
       /\ Forall (fun y => match y with
                           | Fin a => 0.1857 <= a
                           | NaN => True
                           end) out)
  /\ (forall h : R,
        Rabs h <= 1e150 ->
        exists a : R,
          atmospheric_correction (PyFloat (Fin h)) = Ok (PyFloat (Fin a))
          /\ 0.1857 <= a).
Proof.
  split.
  - intros t. eexists. rewrite atmospheric_correction_array.
    split; [reflexivity|]. split; [apply length_map|].
    apply Forall_forall. intros y Hy. apply in_map_iff in Hy.
    destruct Hy as ([h|] & <- & _).
    + rewrite atmospheric_elem_fin. apply atmospheric_documented_lower.
    + exact I.
  - intros h Hh. exists (atmospheric_documented h).
    rewrite atmospheric_correction_fin.
    pose proof (square_in_range h Hh).
    destruct (Rlt_dec float_max (Rabs (h ^ 2))); [exfalso; lra|].
    split; [reflexivity | apply atmospheric_documented_lower].
Qed.

Lemma atmospheric_correction_positive_witness :
  Rabs 8848 <= 1e150
  /\ exists a : R,
       atmospheric_correction (PyFloat (Fin 8848)) = Ok (PyFloat (Fin a))
       /\ 0.1857 <= a.
Proof.
  assert (H : Rabs 8848 <= 1e150) by (rewrite Rabs_pos_eq; lra).
  split; [exact H|].
  exact (proj2 atmospheric_correction_positive 8848 H).
Defined.

(** X10.  Between -1000 m and 13000 m the atmospheric correction falls by
    at least 6e-6 mGal per metre: for two heights at least a millimetre
    apart the higher one gets the smaller value, by that margin. *)
Theorem atmospheric_correction_decreasing (h1 h2 : R) :
  -1000 <= h1 -> h1 + 0.001 <= h2 -> h2 <= 13000 ->
  exists a1 a2 : R,
    atmospheric_correction (PyFloat (Fin h1)) = Ok (PyFloat (Fin a1))
    /\ atmospheric_correction (PyFloat (Fin h2)) = Ok (PyFloat (Fin a2))
    /\ 6e-6 * (h2 - h1) <= a1 - a2.
Proof.
  intros H1 H12 H2.
  exists (atmospheric_documented h1), (atmospheric_documented h2).
  assert (R1 : Rabs h1 <= 1e150)
    by (unfold Rabs; destruct (Rcase_abs h1); lra).
  assert (R2 : Rabs h2 <= 1e150)
    by (unfold Rabs; destruct (Rcase_abs h2); lra).
  pose proof (square_in_range h1 R1). pose proof (square_in_range h2 R2).
  rewrite !atmospheric_correction_fin.
  destruct (Rlt_dec float_max (Rabs (h1 ^ 2))); [exfalso; lra|].
  destruct (Rlt_dec float_max (Rabs (h2 ^ 2))); [exfalso; lra|].
  split; [reflexivity|]. split; [reflexivity|].
  unfold atmospheric_documented. nra.
Qed.

Lemma atmospheric_correction_decreasing_witness :
  -1000 <= 0 /\ 0 + 0.001 <= 1000 /\ 1000 <= 13000
  /\ exists a1 a2 : R,
       atmospheric_correction (PyFloat (Fin 0)) = Ok (PyFloat (Fin a1))
       /\ atmospheric_correction (PyFloat (Fin 1000)) = Ok (PyFloat (Fin a2))
       /\ 6e-6 * (1000 - 0) <= a1 - a2.
Proof.
  assert (H1 : -1000 <= 0) by lra.
  assert (H2 : 0 + 0.001 <= 1000) by lra.
  assert (H3 : 1000 <= 13000) by lra.
  split; [exact H1|]. split; [exact H2|]. split; [exact H3|].
  exact (atmospheric_correction_decreasing 0 1000 H1 H2 H3).
Defined.

(** X12.  What the dropped terms cost: for heights within 9000 m of the datum
    the value [spherical_bouguer_cap_correction] returns is within
    0.093 mGal of the documented quartic, and from 1000 m upwards it is
    short of it by more than 1e-4 mGal. *)
Theorem spherical_cap_error_bound (h : R) :
  -9000 <= h <= 9000 ->
  exists c : R,
    spherical_bouguer_cap_correction (PyFloat (Fin h)) = Ok (PyFloat (Fin c))
    /\ Rabs (spherical_cap_documented h - c) <= 0.093
    /\ (1000 <= h -> 1e-4 < spherical_cap_documented h - c).
Proof.
  intros [Hlo Hhi]. exists (spherical_cap_prefix h).
  assert (R75 : Rabs h <= 1e75)
    by (unfold Rabs; destruct (Rcase_abs h); lra).
  pose proof (fourth_power_in_range h R75).
  rewrite spherical_cap_fin.
  destruct (Rlt_dec float_max (Rabs (h ^ 4))); [exfalso; lra|].
  split; [reflexivity|].
  unfold spherical_cap_documented, spherical_cap_prefix.
  set (s := h * h).
  assert (Hs0 : 0 <= s) by (unfold s; nra).
  assert (Hs1 : s <= 81000000) by (unfold s; nra).
  assert (Hc1 : s * h <= 729000000000) by nra.
  assert (Hc2 : -729000000000 <= s * h) by nra.
  assert (Hq0 : 0 <= s * s) by nra.
  assert (Hq1 : s * s <= 6561000000000000) by nra.
  replace (0.001464139 * h - 3.533047e-07 * s + 1.002709e-13 * (s * h)
           + 3.002407e-18 * (s * h * h)
           - (0.001464139 * h - 3.533047e-07 * s))
    with (1.002709e-13 * (s * h) + 3.002407e-18 * (s * s))
    by (unfold s; ring).
  split.
  - apply Rabs_le. lra.
  - intros H1000.
    assert (1000000 <= s) by (unfold s; nra).
    assert (1000000000 <= s * h) by nra.
    lra.
Qed.

Lemma spherical_cap_error_bound_witness :
  -9000 <= 1000 <= 9000
  /\ exists c : R,
       spherical_bouguer_cap_correction (PyFloat (Fin 1000))
       = Ok (PyFloat (Fin c))
       /\ Rabs (spherical_cap_documented 1000 - c) <= 0.093
       /\ (1000 <= 1000 -> 1e-4 < spherical_cap_documented 1000 - c).
Proof.
  assert (H : -9000 <= 1000 <= 9000) by lra.
  split; [exact H|]. exact (spherical_cap_error_bound 1000 H).
Defined.

(** X14.  The Bouguer and the atmospheric correction of one topography array
    have its length, so their sum is formed element by element and never
    fails on shapes. *)
Theorem bouguer_plus_atmospheric
  (G : R) (t : list np_float) (density_crust density_water : np_float) :
  exists b a : list np_float,
    bouguer_correction G (NdArray t) density_crust density_water
    = Ok (NdArray b)
    /\ atmospheric_correction (NdArray t) = Ok (NdArray a)
    /\ py_add (bouguer_correction G (NdArray t) density_crust density_water)
         (atmospheric_correction (NdArray t))
       = Ok (NdArray (map2 f_add b a))
    /\ length (map2 f_add b a) = length t.
Proof.
  eexists. eexists.
  rewrite bouguer_correction_array, atmospheric_correction_array.
  split; [reflexivity|]. split; [reflexivity|]. split.
  - unfold py_add, lift2. cbn [bind].
    apply broadcast_same_length. now rewrite !length_map.
  - rewrite map2_length; now rewrite !length_map.
Qed.

(** ** Further properties over the heap *)

(** X15.  Two calls in a row on the same topography array: both succeed, the
    topography still holds what it held, and the two results are distinct
    new objects with the same contents. *)
Theorem heap_bouguer_twice (G : R) (dc dw : np_float)
  (h1 : Heap.heap) (t : list np_float) (h2 : Heap.heap) :
  exists (p1 p2 : nat) (final : Heap.heap) (out : list np_float),
    Heap.mbind (Heap.bouguer_correction G (Heap.VRef (length h1)) dc dw)
      (fun r1 =>
         Heap.mbind (Heap.bouguer_correction G (Heap.VRef (length h1)) dc dw)
           (fun r2 => Heap.ret (r1, r2)))
      (h1 ++ t :: h2)
    = (Ok (Heap.VRef p1, Heap.VRef p2), final)
    /\ p1 <> p2 /\ p1 <> length h1 /\ p2 <> length h1
    /\ nth_error final (length h1) = Some t
    /\ nth_error final p1 = Some out
    /\ nth_error final p2 = Some out
    /\ bouguer_correction G (NdArray t) dc dw = Ok (NdArray out).
Proof.
  set (H := h1 ++ t :: h2).
  set (d := map (density_elem dc dw) t).
  set (out := map (bouguer_elem G dc dw) t).
  exists (S (length H)), (S (length (H ++ [d; out]))),
    ((H ++ [d; out]) ++ [d; out]), out.
  assert (LH : length H = (length h1 + S (length h2))%nat).
  { unfold H. rewrite length_app. reflexivity. }
  split.
  - unfold Heap.mbind at 1. unfold H at 1.
    rewrite heap_bouguer_array. fold H d out.
    unfold Heap.mbind.
    assert (E : H ++ [d; out] = h1 ++ t :: (h2 ++ [d; out])).
    { unfold H. now rewrite <- app_assoc. }
    rewrite E at 1. rewrite heap_bouguer_array. fold d out.
    rewrite <- E. reflexivity.
  - rewrite !length_app. cbn [length].
    split; [lia|]. split; [lia|]. split; [lia|].
    split; [|split; [|split]].
    + unfold H. rewrite <- !app_assoc. cbn [app]. apply nth_error_middle.
    + replace ((H ++ [d; out]) ++ [d; out])
        with ((H ++ [d]) ++ out :: [d; out])
        by (rewrite <- !app_assoc; reflexivity).
      replace (S (length H)) with (length (H ++ [d]))
        by (rewrite length_app; cbn [length]; lia).
      apply nth_error_middle.
    + replace ((H ++ [d; out]) ++ [d; out])
        with (((H ++ [d; out]) ++ [d]) ++ out :: [])
        by (rewrite <- !app_assoc; reflexivity).
      replace (S (length H + 2)) with (length ((H ++ [d; out]) ++ [d]))
        by (rewrite !length_app; cbn [length]; lia).
      apply nth_error_middle.
    + apply bouguer_correction_array.
Qed.
